(** * HandLips API: a shallow embedding of [src/app.js]

    The Express application of [src/app.js] is embedded as pure functions in
    a state-and-exception monad.  The state is the world the handlers act
    on: the three MySQL tables, the Cloud Storage bucket, the number of
    pooled connections currently handed out and a trace of the calls made to
    the two collaborators.  What the collaborators decide on their own (does
    [getConnection] fail, does the statement fail, does the write stream
    fail, what does [Date.now()] return) is read from an [Env]. *)

From Stdlib Require Import List String Ascii Bool ZArith QArith Lia.
From Stdlib Require Import Sorted Permutation.
From Stdlib Require DecimalString DecimalPos DecimalZ.
Import ListNotations.

Set Warnings "-register-all".
Local Open Scope string_scope.
Local Open Scope Z_scope.

(** ** JavaScript values and the coercions the handlers rely on *)

Module Js.

(** A JavaScript number.  A finite double is represented by the rational it
    denotes, so the comparisons on finite numbers are exact. *)
Inductive number : Type :=
| NaN
| PosInf
| NegInf
| Fin (q : Q).

(** The values a parsed request body can hold, plus [undefined]. *)
Inductive value : Type :=
| VUndefined
| VNull
| VBool (b : bool)
| VNum (n : number)
| VStr (s : string)
| VArr (elems : list value)
| VObj (fields : list (string * value)).

(** An [Error] object; only its [message] is ever read by the program. *)
Record Error : Type := mkError { message : string }.

Inductive outcome (A : Type) : Type :=
| Return (a : A)
| Throw (e : Error).
Arguments Return {A} a.
Arguments Throw {A} e.

(** The [TypeError]s the program can meet.  The one of a destructuring
    names the property that was asked for and the value it was asked of. *)
Inductive type_error : Type :=
| CannotConvertToPrimitive
| CannotDestructure (property : string) (subject : value)
| NotIterable.

(** What the language runtime provides and the repository does not define:
    the two conversions between numbers and strings of ECMAScript
    ([Number::toString], [StringToNumber]) and the [TypeError]s it raises. *)
Record Runtime : Type := mkRuntime {
  NumberToString : number -> string;
  StringToNumber : string -> number;
  TypeError : type_error -> Error
}.

Definition num_of_Z (z : Z) : value := VNum (Fin (inject_Z z)).

(** Own-property lookup in an object literal. *)
Fixpoint get_own (fields : list (string * value)) (k : string) : option value :=
  match fields with
  | [] => None
  | (k', v) :: rest => if String.eqb k' k then Some v else get_own rest k
  end.

Definition has_own (fields : list (string * value)) (k : string) : bool :=
  match get_own fields k with Some _ => true | None => false end.

(** [ToBoolean]: the falsy values are [undefined], [null], [false], [0],
    [NaN] and the empty string. *)
Definition ToBoolean (v : value) : bool :=
  match v with
  | VUndefined | VNull => false
  | VBool b => b
  | VNum NaN => false
  | VNum (Fin q) => negb (Qeq_bool q 0)
  | VNum _ => true
  | VStr s => negb (String.eqb s "")
  | VArr _ | VObj _ => true
  end.

(** [!v]. *)
Definition falsy (v : value) : bool := negb (ToBoolean v).

Section WithRuntime.
Variable rt : Runtime.

(** [Array.prototype.join] with the separator [","]. *)
Fixpoint join (parts : list string) : string :=
  match parts with
  | [] => ""
  | [p] => p
  | p :: rest => p ++ "," ++ join rest
  end.

Fixpoint sequence {A : Type} (l : list (outcome A)) : outcome (list A) :=
  match l with
  | [] => Return []
  | Throw e :: _ => Throw e
  | Return a :: rest =>
      match sequence rest with
      | Return l' => Return (a :: l')
      | Throw e => Throw e
      end
  end.

(** [ToString].  A plain object prints as ["[object Object]"] through the
    inherited [toString]; an own property of that name shadows it and, being
    data, is not callable, which leaves no method to call: [TypeError].  An
    array prints as the join of its elements, [null] and [undefined]
    printing as the empty string. *)
Fixpoint ToString (v : value) : outcome string :=
  match v with
  | VUndefined => Return "undefined"
  | VNull => Return "null"
  | VBool true => Return "true"
  | VBool false => Return "false"
  | VNum n => Return (NumberToString rt n)
  | VStr s => Return s
  | VArr elems =>
      match sequence (map (fun e =>
                             match e with
                             | VUndefined | VNull => Return ""
                             | _ => ToString e
                             end) elems) with
      | Return parts => Return (join parts)
      | Throw e => Throw e
      end
  | VObj fields =>
      if has_own fields "toString"
      then Throw (TypeError rt CannotConvertToPrimitive)
      else Return "[object Object]"
  end.

(** [ToPrimitive] with hint number: a primitive is itself, an object goes
    through [valueOf] (which returns the object) and then [toString]. *)
Definition ToPrimitive (v : value) : outcome value :=
  match v with
  | VArr _ | VObj _ =>
      match ToString v with
      | Return s => Return (VStr s)
      | Throw e => Throw e
      end
  | _ => Return v
  end.

(** [ToNumber] of a primitive. *)
Definition ToNumber (p : value) : number :=
  match p with
  | VUndefined => NaN
  | VNull => Fin 0
  | VBool true => Fin 1
  | VBool false => Fin 0
  | VNum n => n
  | VStr s => StringToNumber rt s
  | VArr _ | VObj _ => NaN
  end.

Definition Qltb (p q : Q) : bool := negb (Qle_bool q p).

(** [Number::lessThan]; [None] is the undefined result of a comparison
    with [NaN]. *)
Definition Number_lessThan (x y : number) : option bool :=
  match x, y with
  | NaN, _ | _, NaN => None
  | PosInf, _ => Some false
  | NegInf, NegInf => Some false
  | NegInf, _ => Some true
  | Fin _, PosInf => Some true
  | Fin _, NegInf => Some false
  | Fin p, Fin q => Some (Qltb p q)
  end.

(** [IsLessThan] on two primitives: two strings compare as strings, anything
    else as numbers. *)
Definition IsLessThan (px py : value) : option bool :=
  match px, py with
  | VStr a, VStr b => Some (String.ltb a b)
  | _, _ => Number_lessThan (ToNumber px) (ToNumber py)
  end.

Definition of_undefined (r : option bool) : bool :=
  match r with Some b => b | None => false end.

(** [a < b] and [a > b]: the operands are converted left to right, and an
    undefined comparison is [false]. *)
Definition less_than (a b : value) : outcome bool :=
  match ToPrimitive a with
  | Throw e => Throw e
  | Return pa =>
      match ToPrimitive b with
      | Throw e => Throw e
      | Return pb => Return (of_undefined (IsLessThan pa pb))
      end
  end.

Definition greater_than (a b : value) : outcome bool :=
  match ToPrimitive a with
  | Throw e => Throw e
  | Return pa =>
      match ToPrimitive b with
      | Throw e => Throw e
      | Return pb => Return (of_undefined (IsLessThan pb pa))
      end
  end.

(** [const { k } = v]: [undefined] and [null] cannot be destructured, an
    object yields its own property, any other value has no such property. *)
Definition destructure (v : value) (k : string) : outcome value :=
  match v with
  | VUndefined | VNull => Throw (TypeError rt (CannotDestructure k v))
  | VObj fields =>
      match get_own fields k with
      | Some x => Return x
      | None => Return VUndefined
      end
  | _ => Return VUndefined
  end.

End WithRuntime.

(** The decimal digits of an integer, as a template literal prints a
    millisecond timestamp. *)
Definition decimal (z : Z) : string :=
  DecimalString.NilZero.string_of_int (Z.to_int z).

End Js.

Export Js.

(** ** The collaborators: relational store, connection pool, bucket *)

Record history_row : Type := mkHistory {
  h_id : Z;
  h_title : value;
  h_message : value;
  h_created_at : Z
}.

Record profile_row : Type := mkProfile {
  p_id : Z;
  p_name : value;
  p_profile_picture_url : value
}.

Record feedback_row : Type := mkFeedback {
  f_id : Z;
  f_comment : value;
  f_rating : value
}.

(** The three tables, each in the order the store scans it, and the
    counters behind the generated ids.  A cell holds the parameter that was
    bound to it; the column conversions of the store are not modelled. *)
Record Database : Type := mkDatabase {
  history : list history_row;
  history_auto_increment : Z;
  profile : list profile_row;
  feedback : list feedback_row;
  feedback_auto_increment : Z
}.

(** The seven statements of the program. *)
Inductive statement : Type :=
| INSERT_history
| SELECT_history
| SELECT_history_WHERE_id
| SELECT_profile_LIMIT_1
| UPDATE_profile_name_url
| UPDATE_profile_name
| INSERT_feedback.

Definition sql (s : statement) : string :=
  match s with
  | INSERT_history => "INSERT INTO history (title, message) VALUES (?, ?)"
  | SELECT_history => "SELECT * FROM history ORDER BY created_at DESC"
  | SELECT_history_WHERE_id => "SELECT * FROM history WHERE id = ?"
  | SELECT_profile_LIMIT_1 => "SELECT * FROM profile LIMIT 1"
  | UPDATE_profile_name_url =>
      "UPDATE profile SET name = ?, profile_picture_url = ? WHERE id = 1"
  | UPDATE_profile_name => "UPDATE profile SET name = ? WHERE id = 1"
  | INSERT_feedback => "INSERT INTO feedback (comment, rating) VALUES (?, ?)"
  end.

(** What [connection.execute] resolves to: the rows of a SELECT, or the
    header of an INSERT or UPDATE. *)
Inductive result_set : Type :=
| Rows (rows : list value)
| ResultSetHeader (insertId : Z) (affectedRows : Z).

(** An object held by the bucket. *)
Record StoredObject : Type := mkObject {
  object_name : string;
  object_contentType : string;
  object_data : list Byte.byte
}.

(** The calls made to the collaborators, oldest first. *)
Inductive event : Type :=
| EvGetConnection (failure : option Error)
| EvExecute (s : statement) (params : list value) (failure : option Error)
| EvRelease
| EvWrite (name : string) (failure : option Error).

Record World : Type := mkWorld {
  db : Database;
  bucket : list StoredObject;
  leased : nat;
  trace : list event
}.

(** What the surroundings decide during one request: the configured bucket
    name, the clocks, how the store compares the [id] column with a bound
    parameter, and whether a call to a collaborator fails. *)
Record Env : Type := mkEnv {
  BUCKET_NAME : string;
  Date_now : Z;
  CURRENT_TIMESTAMP : Z;
  id_equals : Z -> value -> bool;
  getConnection_failure : option Error;
  execute_failure : option Error;
  write_failure : option Error
}.

(** ** The monad of an async function: state and exceptions *)

Definition M (A : Type) : Type := World -> outcome A * World.

Definition ret {A : Type} (a : A) : M A := fun w => (Return a, w).

Definition throw {A : Type} (e : Error) : M A := fun w => (Throw e, w).

Definition bind {A B : Type} (m : M A) (k : A -> M B) : M B :=
  fun w =>
    match m w with
    | (Return a, w') => k a w'
    | (Throw e, w') => (Throw e, w')
    end.

Definition lift {A : Type} (o : outcome A) : M A := fun w => (o, w).

(** [try { m } catch (error) { handler error }] *)
Definition try_catch {A : Type} (m : M A) (handler : Error -> M A) : M A :=
  fun w =>
    match m w with
    | (Return a, w') => (Return a, w')
    | (Throw e, w') => handler e w'
    end.

(** [try { m } finally { cleanup }]: the cleanup runs on both exits, and the
    result of [m] stands unless the cleanup itself throws. *)
Definition try_finally {A : Type} (m : M A) (cleanup : M unit) : M A :=
  fun w =>
    match m w with
    | (r, w') =>
        match cleanup w' with
        | (Return _, w'') => (r, w'')
        | (Throw e, w'') => (Throw e, w'')
        end
    end.

Declare Scope js_scope.
Delimit Scope js_scope with js.
Notation "x <- m ;; k" := (bind m (fun x => k))
  (at level 61, m at next level, right associativity) : js_scope.
Notation "m ;; k" := (bind m (fun _ => k))
  (at level 61, right associativity) : js_scope.
Local Open Scope js_scope.

Definition record (e : event) (w : World) : World :=
  mkWorld (db w) (bucket w) (leased w) (trace w ++ [e]).

(** *** The store *)

Definition history_object (r : history_row) : value :=
  VObj [("id", num_of_Z (h_id r)); ("title", h_title r);
        ("message", h_message r); ("created_at", num_of_Z (h_created_at r))].

Definition profile_object (r : profile_row) : value :=
  VObj [("id", num_of_Z (p_id r)); ("name", p_name r);
        ("profile_picture_url", p_profile_picture_url r)].

Fixpoint insert_desc (r : history_row) (l : list history_row)
  : list history_row :=
  match l with
  | [] => [r]
  | x :: rest =>
      if h_created_at x <? h_created_at r then r :: l
      else x :: insert_desc r rest
  end.

(** [ORDER BY created_at DESC] *)
Definition order_by_created_at_desc (l : list history_row)
  : list history_row :=
  fold_right insert_desc [] l.

(** [SET name = ? WHERE id = 1] *)
Definition set_name (name : value) (r : profile_row) : profile_row :=
  if p_id r =? 1 then mkProfile (p_id r) name (p_profile_picture_url r) else r.

(** [SET name = ?, profile_picture_url = ? WHERE id = 1] *)
Definition set_name_url (name url : value) (r : profile_row) : profile_row :=
  if p_id r =? 1 then mkProfile (p_id r) name url else r.

Definition count_id_1 (l : list profile_row) : Z :=
  Z.of_nat (List.length (filter (fun r => p_id r =? 1) l)).

Definition ER_WRONG_ARGUMENTS : Error :=
  mkError "Incorrect arguments to mysqld_stmt_execute".

Section Program.
Variable rt : Runtime.
Variable env : Env.

(** The meaning of each statement on the tables. *)
Definition run_statement (s : statement) (params : list value) (d : Database)
  : outcome (result_set * Database) :=
  match s, params with
  | INSERT_history, [title; msg] =>
      let id := history_auto_increment d in
      Return (ResultSetHeader id 1,
              mkDatabase
                (history d ++ [mkHistory id title msg (CURRENT_TIMESTAMP env)])
                (id + 1) (profile d) (feedback d) (feedback_auto_increment d))
  | SELECT_history, [] =>
      Return (Rows (map history_object (order_by_created_at_desc (history d))),
              d)
  | SELECT_history_WHERE_id, [id] =>
      Return (Rows (map history_object
                      (filter (fun r => id_equals env (h_id r) id) (history d))),
              d)
  | SELECT_profile_LIMIT_1, [] =>
      Return (Rows (map profile_object (firstn 1 (profile d))), d)
  | UPDATE_profile_name_url, [name; url] =>
      Return (ResultSetHeader 0 (count_id_1 (profile d)),
              mkDatabase (history d) (history_auto_increment d)
                (map (set_name_url name url) (profile d))
                (feedback d) (feedback_auto_increment d))
  | UPDATE_profile_name, [name] =>
      Return (ResultSetHeader 0 (count_id_1 (profile d)),
              mkDatabase (history d) (history_auto_increment d)
                (map (set_name name) (profile d))
                (feedback d) (feedback_auto_increment d))
  | INSERT_feedback, [comment; rating] =>
      let id := feedback_auto_increment d in
      Return (ResultSetHeader id 1,
              mkDatabase (history d) (history_auto_increment d) (profile d)
                (feedback d ++ [mkFeedback id comment rating]) (id + 1))
  | _, _ => Throw ER_WRONG_ARGUMENTS
  end.

(** [pool.getConnection()] *)
Definition getConnection : M unit :=
  fun w =>
    match getConnection_failure env with
    | Some e => (Throw e, record (EvGetConnection (Some e)) w)
    | None =>
        (Return tt,
         mkWorld (db w) (bucket w) (S (leased w))
                 (trace w ++ [EvGetConnection None]))
    end.

(** [connection.execute(sql, params)] *)
Definition execute (s : statement) (params : list value) : M result_set :=
  fun w =>
    match execute_failure env with
    | Some e => (Throw e, record (EvExecute s params (Some e)) w)
    | None =>
        match run_statement s params (db w) with
        | Throw e => (Throw e, record (EvExecute s params (Some e)) w)
        | Return (r, d) =>
            (Return r,
             mkWorld d (bucket w) (leased w)
                     (trace w ++ [EvExecute s params None]))
        end
    end.

(** [connection.release()] *)
Definition release : M unit :=
  fun w =>
    (Return tt,
     mkWorld (db w) (bucket w) (Nat.pred (leased w)) (trace w ++ [EvRelease])).

(** [query(sql, params)], lines 55-63. *)
Definition query (s : statement) (params : list value) : M result_set :=
  getConnection ;;
  try_finally
    (results <- execute s params ;;
     ret results)
    release.

(** *** The bucket *)

(** What multer hands to the handler as [req.file]. *)
Record File : Type := mkFile {
  fieldname : string;
  originalname : string;
  mimetype : string;
  buffer : list Byte.byte
}.

(** [blobStream.end(file.buffer)] on the stream of
    [blob.createWriteStream({ resumable: false, metadata })]: the promise of
    [uploadFile] is rejected on the stream's ["error"] and resolved on its
    ["finish"]. *)
Definition blobStream_end (name contentType : string) (data : list Byte.byte)
  : M unit :=
  fun w =>
    match write_failure env with
    | Some e => (Throw e, record (EvWrite name (Some e)) w)
    | None =>
        (Return tt,
         mkWorld (db w) (mkObject name contentType data :: bucket w)
                 (leased w) (trace w ++ [EvWrite name None]))
    end.

(** The name given to [bucket.file], line 67. *)
Definition blob_name (file : File) : string :=
  "profiles/" ++ decimal (Date_now env) ++ "-" ++ originalname file.

(** [uploadFile(file)], lines 66-83. *)
Definition uploadFile (file : File) : M string :=
  let blob := blob_name file in
  blobStream_end blob (mimetype file) (buffer file) ;;
  let publicUrl :=
    "https://storage.googleapis.com/" ++ BUCKET_NAME env ++ "/" ++ blob in
  ret publicUrl.

(** ** Requests, responses and the multipart middleware *)

Record Request : Type := mkRequest {
  params_id : string;
  body : value;
  file : option File
}.

Record Response : Type := mkResponse {
  status : Z;
  json : value
}.

(** [res.status(code).json(payload)] and [res.json(payload)], as the handler
    calls them: the status it set (200 when it set none) and the payload it
    handed over.  What goes on the wire is decided by [res_send] below. *)
Definition res_status_json (code : Z) (payload : value) : Response :=
  mkResponse code payload.

Definition res_json (payload : value) : Response := mkResponse 200 payload.

Definition failure (msg : string) : value :=
  VObj [("success", VBool false); ("message", VStr msg)].

Definition success (data : value) : value :=
  VObj [("success", VBool true); ("data", data)].

(** The [catch] block shared by the six handlers. *)
Definition respond_500 (error : Error) : M Response :=
  ret (res_status_json 500 (failure (message error))).

(** [const [row] = rows] *)
Definition first_of (r : result_set) : outcome value :=
  match r with
  | Rows [] => Return VUndefined
  | Rows (row :: _) => Return row
  | ResultSetHeader _ _ => Throw (TypeError rt NotIterable)
  end.

(** The result of a query as the value the handler holds: an array of rows
    or a header object. *)
Definition value_of (r : result_set) : value :=
  match r with
  | Rows rows => VArr rows
  | ResultSetHeader id n =>
      VObj [("insertId", num_of_Z id); ("affectedRows", num_of_Z n)]
  end.

(** [result.insertId] *)
Definition insertId_of (r : result_set) : value :=
  match r with
  | ResultSetHeader id _ => num_of_Z id
  | Rows _ => VUndefined
  end.

(** The multer configuration, lines 36-49. *)
Definition allowedMimes : list string :=
  ["image/jpeg"; "image/png"; "image/jpg"].

Definition includes (l : list string) (s : string) : bool :=
  existsb (String.eqb s) l.

Definition fileFilter (f : File) : outcome bool :=
  if includes allowedMimes (mimetype f) then Return true
  else Throw (mkError "File harus berupa gambar.").

Definition limits_fileSize : Z := 5 * 1024 * 1024.

(** The two errors multer raises by itself. *)
Definition LIMIT_UNEXPECTED_FILE : Error := mkError "Unexpected field".
Definition LIMIT_FILE_SIZE : Error := mkError "File too large".

(** The file part multer looks at: a part whose file name is empty (what a
    browser sends for a file input left empty) is drained and skipped before
    any check is made, as if the request had no file part. *)
Definition named_part (part : option File) : option File :=
  match part with
  | Some f => if String.eqb (originalname f) "" then None else Some f
  | None => None
  end.

(** [upload.single(field)] on the file part of a request, if it has one: a
    part without a file name is skipped; any other part must come under the
    expected field, pass [fileFilter] and stay below the size limit (the
    limit error is raised as soon as the part reaches [fileSize] bytes); it
    then becomes [req.file].  A request without a file part goes through
    untouched. *)
Definition upload_single (field : string) (part : option File)
  : outcome (option File) :=
  match named_part part with
  | None => Return None
  | Some f =>
      if negb (String.eqb (fieldname f) field) then Throw LIMIT_UNEXPECTED_FILE
      else
        match fileFilter f with
        | Throw e => Throw e
        | Return false => Return None
        | Return true =>
            if limits_fileSize <=? Z.of_nat (List.length (buffer f))
            then Throw LIMIT_FILE_SIZE
            else Return (Some f)
        end
  end.

(** ** The handlers *)

(** [POST /api/history], lines 88-118. *)
Definition post_history (req : Request) : M Response :=
  try_catch
    (title <- lift (destructure rt (body req) "title") ;;
     msg <- lift (destructure rt (body req) "message") ;;
     if falsy title || falsy msg then
       ret (res_status_json 400 (failure "Judul dan pesan harus diisi"))
     else
       result <- query INSERT_history [title; msg] ;;
       ret (res_status_json 201
              (success (VObj [("id", insertId_of result);
                              ("title", title);
                              ("message", msg)]))))
    respond_500.

(** [GET /api/history], lines 121-137. *)
Definition get_history (req : Request) : M Response :=
  try_catch
    (histories <- query SELECT_history [] ;;
     ret (res_json (success (value_of histories))))
    respond_500.

(** [GET /api/history/:id], lines 140-163. *)
Definition get_history_id (req : Request) : M Response :=
  try_catch
    (rows <- query SELECT_history_WHERE_id [VStr (params_id req)] ;;
     history <- lift (first_of rows) ;;
     if falsy history then
       ret (res_status_json 404 (failure "Tidak memiliki akses"))
     else
       ret (res_json (success history)))
    respond_500.

(** [GET /api/profile], lines 168-189. *)
Definition get_profile (req : Request) : M Response :=
  try_catch
    (rows <- query SELECT_profile_LIMIT_1 [] ;;
     profile <- lift (first_of rows) ;;
     if falsy profile then
       ret (res_status_json 404 (failure "Profil tidak ditemukan"))
     else
       ret (res_json (success profile)))
    respond_500.

(** [PUT /api/profile], lines 192-229, behind the multipart middleware. *)
Definition put_profile (req : Request) : M Response :=
  try_catch
    (name <- lift (destructure rt (body req) "name") ;;
     if falsy name then
       ret (res_status_json 400 (failure "Name is required"))
     else
       profilePictureUrl <-
         match file req with
         | Some f => url <- uploadFile f ;; ret (VStr url)
         | None => ret VNull
         end ;;
       let updateQuery :=
         if ToBoolean profilePictureUrl then UPDATE_profile_name_url
         else UPDATE_profile_name in
       let params :=
         if ToBoolean profilePictureUrl then [name; profilePictureUrl]
         else [name] in
       query updateQuery params ;;
       ret (res_json
              (success (VObj [("name", name);
                              ("profile_picture_url", profilePictureUrl)]))))
    respond_500.

(** [POST /api/feedback], lines 234-271. *)
Definition post_feedback (req : Request) : M Response :=
  try_catch
    (comment <- lift (destructure rt (body req) "comment") ;;
     rating <- lift (destructure rt (body req) "rating") ;;
     if falsy comment || falsy rating then
       ret (res_status_json 400 (failure "Komentar dan rating harus diisi"))
     else
       out_of_range <-
         (below <- lift (less_than rt rating (VNum (Fin 1))) ;;
          if below then ret true
          else lift (greater_than rt rating (VNum (Fin 4)))) ;;
       if out_of_range then
         ret (res_status_json 400 (failure "Rating harus antara 1-4"))
       else
         result <- query INSERT_feedback [comment; rating] ;;
         ret (res_status_json 201
                (success (VObj [("id", insertId_of result);
                                ("comment", comment);
                                ("rating", rating)]))))
    respond_500.

(** The error-handling middleware, lines 274-279. *)
Definition error_middleware (err : Error) : M Response :=
  ret (res_status_json 500 (failure (message err))).

(** ** The application *)

Inductive endpoint : Type :=
| POST_api_history
| GET_api_history
| GET_api_history_id
| GET_api_profile
| PUT_api_profile
| POST_api_feedback.

(** A request as it reaches the application: the endpoint it is routed to,
    the [:id] segment of its path, its parsed body and, for a multipart
    request, its file part. *)
Record Incoming : Type := mkIncoming {
  target : endpoint;
  path_id : string;
  parsed_body : value;
  file_part : option File
}.

(** Routing: only [PUT /api/profile] goes through [upload.single]; an error
    raised by a middleware skips the handler and reaches the error-handling
    middleware. *)
Definition app (i : Incoming) : M Response :=
  let req := mkRequest (path_id i) (parsed_body i) None in
  match target i with
  | POST_api_history => post_history req
  | GET_api_history => get_history req
  | GET_api_history_id => get_history_id req
  | GET_api_profile => get_profile req
  | PUT_api_profile =>
      match upload_single "profile_picture" (file_part i) with
      | Throw err => error_middleware err
      | Return f => put_profile (mkRequest (path_id i) (parsed_body i) f)
      end
  | POST_api_feedback => post_feedback req
  end.

(** ** What goes on the wire *)

(** A response as the client receives it; [None] is an empty body. *)
Record Wire : Type := mkWire {
  wire_status : Z;
  wire_body : option value
}.

Definition is_GET (e : endpoint) : bool :=
  match e with
  | GET_api_history | GET_api_history_id | GET_api_profile => true
  | _ => false
  end.

(** [req.fresh], as [res.send] reads it: only a GET whose response is a 2xx
    (or a 304) can be fresh, and it is when the validators of the request
    match the entity tag of the body about to be sent.  [app.js] leaves the
    entity tags of Express switched on; [matches] says, body by body,
    whether the request's [If-None-Match] matches its tag. *)
Definition req_fresh (e : endpoint) (matches : value -> bool) (r : Response)
  : bool :=
  is_GET e
  && (((200 <=? status r) && (status r <? 300)) || (status r =? 304))
  && matches (json r).

(** [res.send]: a fresh request is answered 304, and a 304 carries no
    body. *)
Definition res_send (e : endpoint) (matches : value -> bool) (r : Response)
  : Wire :=
  if req_fresh e matches r then mkWire 304 None
  else if status r =? 304 then mkWire 304 None
  else mkWire (status r) (Some (json r)).

(** The application as the client sees it. *)
Definition serve (matches : value -> bool) (i : Incoming)
  : World -> outcome Wire * World :=
  fun w =>
    match app i w with
    | (Return r, w') => (Return (res_send (target i) matches r), w')
    | (Throw e, w') => (Throw e, w')
    end.

End Program.

(** ** A runtime and an environment for the examples *)

Definition is_digit (a : ascii) : bool :=
  let n := N_of_ascii a in ((48 <=? n) && (n <=? 57))%N.

Fixpoint all_digits (s : string) : bool :=
  match s with
  | EmptyString => true
  | String a rest => is_digit a && all_digits rest
  end.

Fixpoint digits_value (acc : Z) (s : string) : Z :=
  match s with
  | EmptyString => acc
  | String a rest => digits_value (10 * acc + Z.of_N (N_of_ascii a - 48)) rest
  end.

(** A runtime for the examples.  It converts the non-empty strings of
    decimal digits and the integers, and agrees with ECMAScript on every
    string and number the examples below give it. *)
Definition sample_runtime : Runtime :=
  mkRuntime
    (fun n => match n with
              | NaN => "NaN"
              | PosInf => "Infinity"
              | NegInf => "-Infinity"
              | Fin q => decimal (Qnum q / Zpos (Qden q))
              end)
    (fun s => match s with
              | EmptyString => Fin 0
              | _ => if all_digits s then Fin (inject_Z (digits_value 0 s))
                     else NaN
              end)
    (fun k => match k with
              | CannotConvertToPrimitive =>
                  mkError "Cannot convert object to primitive value"
              | CannotDestructure property v =>
                  mkError ("Cannot destructure property '" ++ property
                           ++ "' of 'req.body' as it is "
                           ++ match v with VNull => "null" | _ => "undefined" end
                           ++ ".")
              | NotIterable => mkError "object is not iterable"
              end).

(** The store's comparison of an integer [id] with a bound string, for the
    examples: the string must be the decimal form of the integer. *)
Definition sample_id_equals (id : Z) (p : value) : bool :=
  match p with
  | VStr s => String.eqb s (decimal id)
  | _ => false
  end.

(** An environment in which no collaborator fails. *)
Definition sample_env : Env :=
  mkEnv "handlips-bucket" 1730000000000 1730000000 sample_id_equals
        None None None.

Definition empty_database : Database := mkDatabase [] 1 [] [] 1.

Definition sample_world : World := mkWorld empty_database [] 0 [].

(** ** Vocabulary of the statements *)

(** The world after [query] acquired a connection, executed [s] (with the
    given failure, if any, and [d] as the resulting tables) and released the
    connection. *)
Definition after_query (d : Database) (failure : option Error)
    (s : statement) (params : list value) (w : World) : World :=
  mkWorld d (bucket w) (leased w)
          (trace w ++ [EvGetConnection None; EvExecute s params failure;
                       EvRelease]).

(** The URL [uploadFile] resolves to. *)
Definition publicUrl (env : Env) (f : File) : string :=
  "https://storage.googleapis.com/" ++ BUCKET_NAME env ++ "/"
  ++ blob_name env f.

(** The world after the write of [f] finished. *)
Definition after_write (env : Env) (f : File) (w : World) : World :=
  mkWorld (db w)
          (mkObject (blob_name env f) (mimetype f) (buffer f) :: bucket w)
          (leased w) (trace w ++ [EvWrite (blob_name env f) None]).

(** The body of a successful [PUT /api/profile]. *)
Definition profile_data (name url : value) : value :=
  VObj [("success", VBool true);
        ("data", VObj [("name", name); ("profile_picture_url", url)])].

(** The tables after [UPDATE profile ... WHERE id = 1]. *)
Definition with_profile (d : Database) (rows : list profile_row) : Database :=
  mkDatabase (history d) (history_auto_increment d) rows
             (feedback d) (feedback_auto_increment d).

(** A profile table for the examples: the seeded row with id 1, and a
    second row. *)
Definition seeded_world : World :=
  mkWorld (mkDatabase [] 1
             [mkProfile 1 (VStr "Ani") (VStr "https://example.org/ani.png");
              mkProfile 2 (VStr "Tamu") VNull]
             [] 1)
          [] 0 [].

(** A small PNG under the expected field, for the examples. *)
Definition avatar : File :=
  mkFile "profile_picture" "me.png" "image/png" [Byte.x89; Byte.x50].

(** The calls made between two worlds. *)
Definition calls_since (w w' : World) : list event :=
  skipn (List.length (trace w)) (trace w').

(** An environment in which the write to the bucket fails. *)
Definition write_down : Error := mkError "socket hang up".

Definition env_write_down : Env :=
  mkEnv "handlips-bucket" 1730000000000 1730000000 sample_id_equals
        None None (Some write_down).

(** A table whose first row is not the row with id 1. *)
Definition guest_first_world : World :=
  mkWorld (mkDatabase [] 1
             [mkProfile 2 (VStr "Tamu") VNull;
              mkProfile 1 (VStr "Ani") VNull]
             [] 1)
          [] 0 [].



(** The handler of [POST /api/feedback] once both guards are passed. *)
Definition insert_feedback (env : Env) (comment rating : value) (w : World)
  : outcome Response * World :=
  match query env INSERT_feedback [comment; rating] w with
  | (Return result, w') =>
      (Return (mkResponse 201
                 (success (VObj [("id", insertId_of result);
                                 ("comment", comment);
                                 ("rating", rating)]))), w')
  | (Throw e, w') => (Return (mkResponse 500 (failure (message e))), w')
  end.

(** The calls one [query] makes: none, a failed [getConnection], or the
    bracket acquire, execute, release. *)
Definition query_calls (q : list event) : Prop :=
  q = [] \/
  (exists e, q = [EvGetConnection (Some e)]) \/
  (exists s params failure,
      q = [EvGetConnection None; EvExecute s params failure; EvRelease]).

(** The calls one [uploadFile] makes: none, or one write. *)
Definition write_calls (p : list event) : Prop :=
  p = [] \/ exists name failure, p = [EvWrite name failure].

(** The error of a store that refuses a statement, for the examples. *)
Definition store_down : Error := mkError "Connection lost".

(** Newest first: a row that comes earlier was not created before one that
    comes later. *)
Definition not_older (a b : history_row) : Prop :=
  h_created_at b <= h_created_at a.

(** A numeric rating the handler lets through: a finite number between 1
    and 4. *)
Definition in_range (n : number) : Prop :=
  match n with
  | Fin q => (1 <= q /\ q <= 4)%Q
  | _ => False
  end.

(** The fields each handler requires, and what it answers without them. *)
Definition required_fields (e : endpoint) : list string :=
  match e with
  | POST_api_history => ["title"; "message"]
  | PUT_api_profile => ["name"]
  | POST_api_feedback => ["comment"; "rating"]
  | _ => []
  end.

Definition missing_message (e : endpoint) : string :=
  match e with
  | POST_api_history => "Judul dan pesan harus diisi"
  | PUT_api_profile => "Name is required"
  | POST_api_feedback => "Komentar dan rating harus diisi"
  | _ => ""
  end.

(** ** Properties *)

(** *** The query helper *)

(** A statement is determined by its text. *)
Lemma sql_injective (s s' : statement) : sql s = sql s' -> s = s'.
Proof. destruct s, s'; cbn; intros H; try reflexivity; discriminate H. Qed.

Lemma query_eq (env : Env) (s : statement) (params : list value) (w : World) :
  query env s params w =
  match getConnection_failure env with
  | Some e => (Throw e, record (EvGetConnection (Some e)) w)
  | None =>
      match execute_failure env with
      | Some e => (Throw e, after_query (db w) (Some e) s params w)
      | None =>
          match run_statement env s params (db w) with
          | Return (results, d) =>
              (Return results, after_query d None s params w)
          | Throw e => (Throw e, after_query (db w) (Some e) s params w)
          end
      end
  end.
Proof.
  unfold query, bind, try_finally, getConnection, execute, release, ret,
    record, after_query.
  destruct (getConnection_failure env) as [e|]; cbn; [reflexivity|].
  destruct (execute_failure env) as [e|]; cbn.
  - now rewrite <- !app_assoc.
  - destruct (run_statement env s params (db w)) as [[results d]|e]; cbn;
      now rewrite <- !app_assoc.
Qed.

(** C5.  [query] returns every connection it acquired: the number of
    connections handed out is the same after the call as before it on all
    three exits.  When [getConnection] fails nothing was acquired and its
    error is what the caller gets; when the statement fails the caller gets
    that very error, the tables are untouched and the release is the last
    call made; when the statement succeeds the caller gets its result and
    the release is again the last call made. *)
Theorem query_releases_on_every_exit (env : Env) (s : statement)
    (params : list value) (w : World) :
  leased (snd (query env s params w)) = leased w /\
  match getConnection_failure env, execute_failure env with
  | Some e, _ =>
      query env s params w = (Throw e, record (EvGetConnection (Some e)) w)
  | None, Some e =>
      fst (query env s params w) = Throw e /\
      db (snd (query env s params w)) = db w /\
      trace (snd (query env s params w)) =
        (trace w ++ [EvGetConnection None; EvExecute s params (Some e);
                     EvRelease])%list
  | None, None =>
      match run_statement env s params (db w) with
      | Return (results, d) =>
          fst (query env s params w) = Return results /\
          db (snd (query env s params w)) = d /\
          trace (snd (query env s params w)) =
            (trace w ++ [EvGetConnection None; EvExecute s params None;
                         EvRelease])%list
      | Throw e =>
          fst (query env s params w) = Throw e /\
          db (snd (query env s params w)) = db w /\
          trace (snd (query env s params w)) =
            (trace w ++ [EvGetConnection None; EvExecute s params (Some e);
                         EvRelease])%list
      end
  end.
Proof.
  unfold query, bind, try_finally, getConnection, execute, release, ret, record.
  destruct (getConnection_failure env) as [e|]; cbn.
  - split; reflexivity.
  - destruct (execute_failure env) as [e|]; cbn.
    + rewrite <- !app_assoc. repeat split; reflexivity.
    + destruct (run_statement env s params (db w)) as [[results d]|e]; cbn;
        rewrite <- !app_assoc; repeat split; reflexivity.
Qed.

(** *** The upload pipeline *)

Lemma uploadFile_eq (env : Env) (f : File) (w : World) :
  uploadFile env f w =
  match write_failure env with
  | Some e => (Throw e, record (EvWrite (blob_name env f) (Some e)) w)
  | None =>
      (Return ("https://storage.googleapis.com/" ++ BUCKET_NAME env ++ "/"
               ++ blob_name env f),
       mkWorld (db w)
               (mkObject (blob_name env f) (mimetype f) (buffer f) :: bucket w)
               (leased w) (trace w ++ [EvWrite (blob_name env f) None]))
  end.
Proof.
  unfold uploadFile, bind, blobStream_end, ret.
  destruct (write_failure env); reflexivity.
Qed.

(** C7.  The object is written under the key
    [profiles/<Date.now()>-<originalname>], with the file's MIME type as its
    content type and the file's buffer as its data, and when the write
    finishes [uploadFile] resolves to
    [https://storage.googleapis.com/<bucket name>/<key>] for that same key;
    when the write fails it rejects with the stream's error and the bucket
    holds nothing new. *)
Theorem uploadFile_key_and_publicUrl (env : Env) (f : File) (w : World) :
  let key := "profiles/" ++ decimal (Date_now env) ++ "-" ++ originalname f in
  match write_failure env with
  | None =>
      fst (uploadFile env f w) =
        Return ("https://storage.googleapis.com/" ++ BUCKET_NAME env ++ "/"
                ++ key) /\
      bucket (snd (uploadFile env f w)) =
        mkObject key (mimetype f) (buffer f) :: bucket w /\
      trace (snd (uploadFile env f w)) = (trace w ++ [EvWrite key None])%list
  | Some e =>
      fst (uploadFile env f w) = Throw e /\
      bucket (snd (uploadFile env f w)) = bucket w /\
      trace (snd (uploadFile env f w)) =
        (trace w ++ [EvWrite key (Some e)])%list
  end.
Proof.
  intros key. rewrite uploadFile_eq.
  destruct (write_failure env); cbn; repeat split; reflexivity.
Qed.

Lemma includes_In (l : list string) (s : string) :
  includes l s = true <-> In s l.
Proof.
  unfold includes. rewrite existsb_exists. split.
  - intros (x & Hx & E). apply String.eqb_eq in E. now subst.
  - intros H. exists s. split; [exact H|apply String.eqb_refl].
Qed.

Lemma named_part_named (f : File) :
  originalname f <> "" -> named_part (Some f) = Some f.
Proof.
  intros H. unfold named_part.
  destruct (String.eqb_spec (originalname f) ""); [contradiction|reflexivity].
Qed.




Example unnamed_pdf_part_response :
  app sample_runtime sample_env
      (mkIncoming PUT_api_profile "" (VObj [("name", VStr "Budi")])
         (Some (mkFile "profile_picture" "" "application/pdf" [])))
      seeded_world =
    (Return (mkResponse 200 (profile_data (VStr "Budi") VNull)),
     after_query
       (with_profile (db seeded_world)
          (map (set_name (VStr "Budi")) (profile (db seeded_world))))
       None UPDATE_profile_name [VStr "Budi"] seeded_world).
Proof. reflexivity. Qed.

(** What the two rejections say. *)
Example disallowed_mime_message :
  upload_single "profile_picture"
    (Some (mkFile "profile_picture" "cv.pdf" "application/pdf" [])) =
  Throw (mkError "File harus berupa gambar.").
Proof. reflexivity. Qed.

Lemma oversized_file_is_too_large (f : File) :
  originalname f <> "" ->
  fieldname f = "profile_picture" ->
  In (mimetype f) allowedMimes ->
  5 * 1024 * 1024 < Z.of_nat (List.length (buffer f)) ->
  upload_single "profile_picture" (Some f) = Throw LIMIT_FILE_SIZE.
Proof.
  intros Hname Hf Hm Hs. unfold upload_single, fileFilter.
  rewrite (named_part_named f Hname), Hf, String.eqb_refl. cbn [negb].
  apply includes_In in Hm. rewrite Hm.
  assert (Hle : (limits_fileSize <=? Z.of_nat (List.length (buffer f))) = true)
    by (apply Z.leb_le; unfold limits_fileSize; lia).
  now rewrite Hle.
Qed.

(** A file of an allowed type that fits the limit becomes [req.file]. *)
Example accepted_file : upload_single "profile_picture" (Some avatar) = Return (Some avatar).
Proof. reflexivity. Qed.

(** *** History *)

(** [POST /api/history] echoes the fields with the generated id, and the
    list is returned newest first. *)
Example post_history_created :
  fst (app sample_runtime sample_env
         (mkIncoming POST_api_history ""
            (VObj [("title", VStr "Halo"); ("message", VStr "Apa kabar")])
            None)
         sample_world) =
    Return (mkResponse 201
              (success (VObj [("id", num_of_Z 1);
                              ("title", VStr "Halo");
                              ("message", VStr "Apa kabar")]))).
Proof. reflexivity. Qed.

Example post_history_missing_message :
  app sample_runtime sample_env
      (mkIncoming POST_api_history "" (VObj [("title", VStr "Halo")]) None)
      sample_world =
    (Return (mkResponse 400 (failure "Judul dan pesan harus diisi")),
     sample_world).
Proof. reflexivity. Qed.

Example get_history_newest_first :
  fst (app sample_runtime sample_env
         (mkIncoming GET_api_history "" VUndefined None)
         (mkWorld (mkDatabase
                     [mkHistory 1 (VStr "a") (VStr "x") 10;
                      mkHistory 2 (VStr "b") (VStr "y") 30;
                      mkHistory 3 (VStr "c") (VStr "z") 20]
                     4 [] [] 1) [] 0 [])) =
    Return (mkResponse 200
              (success (VArr [history_object (mkHistory 2 (VStr "b") (VStr "y") 30);
                              history_object (mkHistory 3 (VStr "c") (VStr "z") 20);
                              history_object (mkHistory 1 (VStr "a") (VStr "x") 10)]))).
Proof. reflexivity. Qed.

Lemma filter_none {A : Type} (p : A -> bool) (l : list A) :
  (forall x, In x l -> p x = false) -> filter p l = [].
Proof.
  induction l as [|a l IH]; intros H; cbn; [reflexivity|].
  rewrite (H a (or_introl eq_refl)). apply IH.
  intros x Hx. apply H. now right.
Qed.

(** C8.  When the store answers the lookup of [GET /api/history/:id] and no
    row of [history] has that id, the response is 404 with the body
    [{"success": false, "message": "Tidak memiliki akses"}]. *)
Theorem get_history_id_absent_is_404_no_access (rt : Runtime) (env : Env)
    (i : Incoming) (w : World) :
  target i = GET_api_history_id ->
  getConnection_failure env = None ->
  execute_failure env = None ->
  (forall r, In r (history (db w)) ->
             id_equals env (h_id r) (VStr (path_id i)) = false) ->
  fst (app rt env i w) =
    Return (mkResponse 404
              (VObj [("success", VBool false);
                     ("message", VStr "Tidak memiliki akses")])).
Proof.
  intros Ht Hc He Habsent. unfold app. rewrite Ht.
  unfold get_history_id, try_catch, bind. rewrite query_eq, Hc, He.
  cbn [run_statement params_id]. rewrite (filter_none _ _ Habsent).
  reflexivity.
Qed.

Lemma get_history_id_absent_is_404_no_access_witness :
  fst (app sample_runtime sample_env
         (mkIncoming GET_api_history_id "999" VUndefined None)
         (mkWorld (mkDatabase
                     [mkHistory 1 (VStr "Halo") (VStr "Apa kabar") 1729999999]
                     2 [] [] 1) [] 0 [])) =
    Return (mkResponse 404
              (VObj [("success", VBool false);
                     ("message", VStr "Tidak memiliki akses")])).
Proof.
  apply (get_history_id_absent_is_404_no_access sample_runtime sample_env
           (mkIncoming GET_api_history_id "999" VUndefined None)).
  - reflexivity.
  - reflexivity.
  - reflexivity.
  - intros r [<-|[]]. reflexivity.
Defined.

(** On the same route a failure of the store is answered 500, whatever the
    table holds. *)
Lemma get_history_id_store_failure (rt : Runtime) (env : Env)
    (i : Incoming) (w : World) (e : Error) :
  target i = GET_api_history_id ->
  getConnection_failure env = Some e \/
  (getConnection_failure env = None /\ execute_failure env = Some e) ->
  fst (app rt env i w) = Return (mkResponse 500 (failure (message e))).
Proof.
  intros Ht H. unfold app. rewrite Ht.
  unfold get_history_id, try_catch, bind. rewrite query_eq.
  destruct H as [->|[-> ->]]; reflexivity.
Qed.

(** *** Profile *)

Lemma upload_single_accepts (field : string) (part fo : option File) :
  upload_single field part = Return fo -> fo = named_part part.
Proof.
  unfold upload_single, fileFilter. destruct (named_part part) as [f|].
  - destruct (negb (fieldname f =? field)%string); [discriminate|].
    destruct (includes allowedMimes (mimetype f)); [|discriminate].
    destruct (limits_fileSize <=? Z.of_nat (List.length (buffer f)));
      [discriminate|].
    now intros [= <-].
  - now intros [= <-].
Qed.

(** The handler of [PUT /api/profile], path by path. *)
Lemma put_profile_eq (rt : Runtime) (env : Env) (req : Request) (w : World) :
  put_profile rt env req w =
  match destructure rt (body req) "name" with
  | Throw e => (Return (mkResponse 500 (failure (message e))), w)
  | Return name =>
      if falsy name
      then (Return (mkResponse 400 (failure "Name is required")), w)
      else
        match file req with
        | None =>
            match query env UPDATE_profile_name [name] w with
            | (Return _, w') =>
                (Return (mkResponse 200 (profile_data name VNull)), w')
            | (Throw e, w') =>
                (Return (mkResponse 500 (failure (message e))), w')
            end
        | Some f =>
            match write_failure env with
            | Some e =>
                (Return (mkResponse 500 (failure (message e))),
                 record (EvWrite (blob_name env f) (Some e)) w)
            | None =>
                match query env UPDATE_profile_name_url
                        [name; VStr (publicUrl env f)]
                        (after_write env f w) with
                | (Return _, w') =>
                    (Return (mkResponse 200
                               (profile_data name (VStr (publicUrl env f)))),
                     w')
                | (Throw e, w') =>
                    (Return (mkResponse 500 (failure (message e))), w')
                end
            end
        end
  end.
Proof.
  unfold put_profile, try_catch, bind, lift, respond_500, ret.
  destruct (destructure rt (body req) "name") as [name|e]; [|reflexivity].
  destruct (falsy name); [reflexivity|].
  destruct (file req) as [f|].
  - unfold bind. rewrite uploadFile_eq.
    destruct (write_failure env) as [e|]; [reflexivity|].
    unfold ret. fold (publicUrl env f). fold (after_write env f w).
    change (ToBoolean (VStr (publicUrl env f))) with true. cbv iota.
    destruct (query env UPDATE_profile_name_url _ _) as [[r|e] w'];
      reflexivity.
  - cbn [ToBoolean]. cbv iota.
    destruct (query env UPDATE_profile_name _ _) as [[r|e] w']; reflexivity.
Qed.

(** A [PUT /api/profile] answered 200, spelled out: the name was truthy, the
    store executed the UPDATE, and the file part, if any, was accepted and
    written. *)
Lemma put_profile_success (rt : Runtime) (env : Env) (i : Incoming)
    (w : World) (r : Response) :
  target i = PUT_api_profile ->
  fst (app rt env i w) = Return r ->
  status r = 200 ->
  exists name : value,
    destructure rt (parsed_body i) "name" = Return name /\
    ToBoolean name = true /\
    match named_part (file_part i) with
    | None =>
        app rt env i w =
          (Return (mkResponse 200 (profile_data name VNull)),
           after_query
             (with_profile (db w) (map (set_name name) (profile (db w))))
             None UPDATE_profile_name [name] w)
    | Some f =>
        app rt env i w =
          (Return (mkResponse 200 (profile_data name (VStr (publicUrl env f)))),
           after_query
             (with_profile (db w)
                (map (set_name_url name (VStr (publicUrl env f)))
                     (profile (db w))))
             None UPDATE_profile_name_url [name; VStr (publicUrl env f)]
             (after_write env f w))
    end.
Proof.
  intros Ht Hr Hs. unfold app in *. rewrite Ht in *.
  destruct (upload_single "profile_picture" (file_part i)) as [fo|e] eqn:Hu.
  2:{ cbn in Hr. injection Hr as <-. discriminate. }
  apply upload_single_accepts in Hu. subst fo.
  rewrite put_profile_eq in *. cbn [body file] in *.
  destruct (destructure rt (parsed_body i) "name") as [name|e].
  2:{ cbn in Hr. injection Hr as <-. discriminate. }
  exists name. split; [reflexivity|].
  unfold falsy in *. destruct (ToBoolean name).
  2:{ cbn in Hr. injection Hr as <-. discriminate. }
  split; [reflexivity|]. cbn [negb] in *. cbv iota in *.
  destruct (named_part (file_part i)) as [f|].
  - destruct (write_failure env) as [e|].
    { cbn in Hr. injection Hr as <-. discriminate. }
    rewrite query_eq in *.
    destruct (getConnection_failure env) as [e|].
    { cbn in Hr. injection Hr as <-. discriminate. }
    destruct (execute_failure env) as [e|].
    { cbn in Hr. injection Hr as <-. discriminate. }
    reflexivity.
  - rewrite query_eq in *.
    destruct (getConnection_failure env) as [e|].
    { cbn in Hr. injection Hr as <-. discriminate. }
    destruct (execute_failure env) as [e|].
    { cbn in Hr. injection Hr as <-. discriminate. }
    reflexivity.
Qed.

(** C2.  A [PUT /api/profile] answered 200 returns the name it was given
    and, as [profile_picture_url], the URL that [uploadFile] produced in this
    very request when the request had a file, and [null] when it had none
    (a file part without a file name counts as none).
    The only statement the request executes is the UPDATE: the stored row is
    not read back. *)
Theorem put_profile_returns_name_and_fresh_url (rt : Runtime) (env : Env)
    (i : Incoming) (w : World) (r : Response) :
  target i = PUT_api_profile ->
  fst (app rt env i w) = Return r ->
  status r = 200 ->
  exists name : value,
    destructure rt (parsed_body i) "name" = Return name /\
    match named_part (file_part i) with
    | None =>
        json r =
          VObj [("success", VBool true);
                ("data", VObj [("name", name);
                               ("profile_picture_url", VNull)])] /\
        trace (snd (app rt env i w)) =
          (trace w ++ [EvGetConnection None;
                       EvExecute UPDATE_profile_name [name] None;
                       EvRelease])%list
    | Some f =>
        let key :=
          "profiles/" ++ decimal (Date_now env) ++ "-" ++ originalname f in
        let url :=
          "https://storage.googleapis.com/" ++ BUCKET_NAME env ++ "/" ++ key in
        json r =
          VObj [("success", VBool true);
                ("data", VObj [("name", name);
                               ("profile_picture_url", VStr url)])] /\
        trace (snd (app rt env i w)) =
          (trace w ++ [EvWrite key None;
                       EvGetConnection None;
                       EvExecute UPDATE_profile_name_url [name; VStr url] None;
                       EvRelease])%list
    end.
Proof.
  intros Ht Hr Hs.
  destruct (put_profile_success rt env i w r Ht Hr Hs) as (name & Hn & _ & H).
  exists name. split; [exact Hn|].
  destruct (named_part (file_part i)) as [f|]; rewrite H in Hr |- *;
    cbn in Hr; injection Hr as <-; cbn; split; try reflexivity.
  now rewrite <- app_assoc.
Qed.

Lemma put_profile_returns_name_and_fresh_url_witness :
  exists name : value,
    destructure sample_runtime (VObj [("name", VStr "Budi")]) "name"
      = Return name /\
    json (mkResponse 200 (profile_data (VStr "Budi") VNull)) =
      VObj [("success", VBool true);
            ("data", VObj [("name", name); ("profile_picture_url", VNull)])] /\
    trace (snd (app sample_runtime sample_env
                  (mkIncoming PUT_api_profile "" (VObj [("name", VStr "Budi")])
                     None)
                  sample_world)) =
      ([] ++ [EvGetConnection None;
              EvExecute UPDATE_profile_name [name] None;
              EvRelease])%list.
Proof.
  apply (put_profile_returns_name_and_fresh_url sample_runtime sample_env
           (mkIncoming PUT_api_profile "" (VObj [("name", VStr "Budi")]) None)
           sample_world
           (mkResponse 200 (profile_data (VStr "Budi") VNull))).
  - reflexivity.
  - reflexivity.
  - reflexivity.
Defined.

Lemma set_name_keeps_url (name : value) (rows : list profile_row) :
  map p_profile_picture_url (map (set_name name) rows) =
  map p_profile_picture_url rows.
Proof.
  induction rows as [|x rows IH]; cbn; [reflexivity|].
  rewrite IH. unfold set_name. now destruct (p_id x =? 1).
Qed.

Lemma set_name_url_on_id_1 (name url : value) (rows : list profile_row)
    (x : profile_row) :
  In x (map (set_name_url name url) rows) ->
  p_id x = 1 ->
  p_name x = name /\ p_profile_picture_url x = url.
Proof.
  intros Hin Hid. apply in_map_iff in Hin as (y & <- & _).
  unfold set_name_url in *. destruct (p_id y =? 1) eqn:E; cbn in *.
  - now split.
  - apply Z.eqb_neq in E. contradiction.
Qed.

Lemma set_name_on_id_1 (name : value) (rows : list profile_row)
    (x : profile_row) :
  In x (map (set_name name) rows) -> p_id x = 1 -> p_name x = name.
Proof.
  intros Hin Hid. apply in_map_iff in Hin as (y & <- & _).
  unfold set_name in *. destruct (p_id y =? 1) eqn:E; cbn in *.
  - reflexivity.
  - apply Z.eqb_neq in E. contradiction.
Qed.

(** C3.  After a [PUT /api/profile] answered 200 the other two tables are
    as before and, in [profile]:
    - without a file (or with a file part that has no file name), every
      row keeps its [profile_picture_url], and the row with id 1 has the new
      name;
    - with a file, the row with id 1 has the new name and, as
      [profile_picture_url], the URL
      [https://storage.googleapis.com/<bucket>/profiles/<Date.now()>-<originalname>],
      and the rows with another id are unchanged. *)
Theorem put_profile_writes_url_only_with_file (rt : Runtime) (env : Env)
    (i : Incoming) (w : World) (r : Response) :
  target i = PUT_api_profile ->
  fst (app rt env i w) = Return r ->
  status r = 200 ->
  let w' := snd (app rt env i w) in
  history (db w') = history (db w) /\
  feedback (db w') = feedback (db w) /\
  exists name : value,
    destructure rt (parsed_body i) "name" = Return name /\
    match named_part (file_part i) with
    | None =>
        map p_profile_picture_url (profile (db w')) =
          map p_profile_picture_url (profile (db w)) /\
        profile (db w') = map (set_name name) (profile (db w)) /\
        (forall x, In x (profile (db w')) -> p_id x = 1 -> p_name x = name)
    | Some f =>
        let url :=
          "https://storage.googleapis.com/" ++ BUCKET_NAME env ++ "/"
          ++ "profiles/" ++ decimal (Date_now env) ++ "-" ++ originalname f in
        profile (db w') = map (set_name_url name (VStr url)) (profile (db w)) /\
        (forall x, In x (profile (db w')) -> p_id x = 1 ->
                   p_name x = name /\ p_profile_picture_url x = VStr url) /\
        (forall x, In x (profile (db w)) -> p_id x <> 1 ->
                   In x (profile (db w')))
    end.
Proof.
  intros Ht Hr Hs w'.
  destruct (put_profile_success rt env i w r Ht Hr Hs) as (name & Hn & _ & H).
  subst w'. destruct (named_part (file_part i)) as [f|]; rewrite H; cbn;
    (split; [reflexivity|]); (split; [reflexivity|]);
    exists name; (split; [exact Hn|]).
  - split; [reflexivity|]. split.
    + intros x. apply set_name_url_on_id_1.
    + intros x Hin Hid. apply in_map_iff. exists x. split; [|exact Hin].
      unfold set_name_url. apply Z.eqb_neq in Hid. now rewrite Hid.
  - split; [apply set_name_keeps_url|]. split; [reflexivity|].
    intros x. apply set_name_on_id_1.
Qed.

Lemma put_profile_writes_url_only_with_file_witness :
  let w' := snd (app sample_runtime sample_env
                   (mkIncoming PUT_api_profile ""
                      (VObj [("name", VStr "Budi")]) (Some avatar))
                   seeded_world) in
  history (db w') = [] /\
  feedback (db w') = [] /\
  exists name : value,
    Return (VStr "Budi") = Return name /\
    let url :=
      "https://storage.googleapis.com/handlips-bucket/profiles/1730000000000-me.png"
    in
    profile (db w') =
      map (set_name_url name (VStr url)) (profile (db seeded_world)) /\
    (forall x, In x (profile (db w')) -> p_id x = 1 ->
               p_name x = name /\ p_profile_picture_url x = VStr url) /\
    (forall x, In x (profile (db seeded_world)) -> p_id x <> 1 ->
               In x (profile (db w'))).
Proof.
  apply (put_profile_writes_url_only_with_file sample_runtime sample_env
           (mkIncoming PUT_api_profile ""
              (VObj [("name", VStr "Budi")]) (Some avatar))
           seeded_world
           (mkResponse 200
              (profile_data (VStr "Budi")
                 (VStr (publicUrl sample_env avatar))))).
  - reflexivity.
  - reflexivity.
  - reflexivity.
Defined.

(** *** A failed write *)

Lemma skipn_length_app {A : Type} (l l' : list A) :
  skipn (List.length l) (l ++ l') = l'.
Proof. induction l as [|a l IH]; cbn; [reflexivity|exact IH]. Qed.

Lemma skipn_length_self {A : Type} (l : list A) : skipn (List.length l) l = [].
Proof. induction l as [|a l IH]; cbn; [reflexivity|exact IH]. Qed.

(** C4.  If, while [PUT /api/profile] is served for a request with a file,
    the write to the bucket fails with an error, the response is 500 with
    that error's message, and the failed write is the only call the request
    made: no connection was acquired, no UPDATE was executed, and the tables
    and the bucket are as they were. *)
Theorem failed_write_answers_500_without_update (rt : Runtime) (env : Env)
    (i : Incoming) (f : File) (e : Error) (w : World) :
  target i = PUT_api_profile ->
  file_part i = Some f ->
  In (EvWrite (blob_name env f) (Some e))
     (calls_since w (snd (app rt env i w))) ->
  fst (app rt env i w) =
    Return (mkResponse 500
              (VObj [("success", VBool false);
                     ("message", VStr (message e))])) /\
  db (snd (app rt env i w)) = db w /\
  bucket (snd (app rt env i w)) = bucket w /\
  leased (snd (app rt env i w)) = leased w /\
  calls_since w (snd (app rt env i w)) =
    [EvWrite (blob_name env f) (Some e)].
Proof.
  intros Ht Hf. unfold calls_since, app. rewrite Ht, Hf.
  destruct (upload_single "profile_picture" (Some f)) as [fo|e'] eqn:Hu.
  2:{ cbn. rewrite skipn_length_self. intros []. }
  apply upload_single_accepts in Hu. subst fo.
  rewrite put_profile_eq. cbn [body file].
  destruct (destructure rt (parsed_body i) "name") as [name|e'].
  2:{ cbn. rewrite skipn_length_self. intros []. }
  destruct (falsy name).
  { cbn. rewrite skipn_length_self. intros []. }
  unfold named_part. destruct (originalname f =? "")%string.
  - rewrite query_eq.
    destruct (getConnection_failure env) as [e'|].
    { cbn. rewrite skipn_length_app. cbn. intros [H|[]]; discriminate. }
    destruct (execute_failure env) as [e'|].
    { cbn. rewrite skipn_length_app.
      cbn. intros [H|[H|[H|[]]]]; discriminate. }
    cbn. rewrite skipn_length_app.
    cbn. intros [H|[H|[H|[]]]]; discriminate.
  - destruct (write_failure env) as [e'|].
    + cbn. rewrite skipn_length_app. intros [[= <-]|[]].
      repeat split; reflexivity.
    + rewrite query_eq.
      destruct (getConnection_failure env) as [e'|].
      { cbn. rewrite <- app_assoc, skipn_length_app.
        cbn. intros [H|[H|[]]]; discriminate. }
      destruct (execute_failure env) as [e'|].
      { cbn. rewrite <- app_assoc, skipn_length_app.
        cbn. intros [H|[H|[H|[H|[]]]]]; discriminate. }
      cbn. rewrite <- app_assoc, skipn_length_app.
      cbn. intros [H|[H|[H|[H|[]]]]]; discriminate.
Qed.

Lemma failed_write_answers_500_without_update_witness :
  fst (app sample_runtime env_write_down
         (mkIncoming PUT_api_profile "" (VObj [("name", VStr "Budi")])
            (Some avatar))
         seeded_world) =
    Return (mkResponse 500
              (VObj [("success", VBool false);
                     ("message", VStr "socket hang up")])) /\
  db (snd (app sample_runtime env_write_down
             (mkIncoming PUT_api_profile "" (VObj [("name", VStr "Budi")])
                (Some avatar))
             seeded_world)) = db seeded_world /\
  bucket (snd (app sample_runtime env_write_down
                 (mkIncoming PUT_api_profile "" (VObj [("name", VStr "Budi")])
                    (Some avatar))
                 seeded_world)) = [] /\
  leased (snd (app sample_runtime env_write_down
                 (mkIncoming PUT_api_profile "" (VObj [("name", VStr "Budi")])
                    (Some avatar))
                 seeded_world)) = 0%nat /\
  calls_since seeded_world
    (snd (app sample_runtime env_write_down
            (mkIncoming PUT_api_profile "" (VObj [("name", VStr "Budi")])
               (Some avatar))
            seeded_world)) =
    [EvWrite "profiles/1730000000000-me.png" (Some write_down)].
Proof.
  apply (failed_write_answers_500_without_update sample_runtime env_write_down
           (mkIncoming PUT_api_profile "" (VObj [("name", VStr "Budi")])
              (Some avatar))
           avatar write_down seeded_world).
  - reflexivity.
  - reflexivity.
  - left. reflexivity.
Defined.

(** *** The row read by GET and the row written by PUT *)

(** Whatever [PUT /api/profile] does, a first row whose id is not 1 stays
    the first row, unchanged. *)
Lemma put_profile_keeps_foreign_head (rt : Runtime) (env : Env)
    (i : Incoming) (w : World) (r : profile_row) (rest : list profile_row) :
  target i = PUT_api_profile ->
  profile (db w) = r :: rest ->
  p_id r <> 1 ->
  exists rest', profile (db (snd (app rt env i w))) = r :: rest'.
Proof.
  intros Ht Hp Hid. apply Z.eqb_neq in Hid.
  assert (Hn : forall name, set_name name r = r)
    by (intros; unfold set_name; now rewrite Hid).
  assert (Hu : forall name url, set_name_url name url r = r)
    by (intros; unfold set_name_url; now rewrite Hid).
  unfold app. rewrite Ht.
  destruct (upload_single "profile_picture" (file_part i)) as [fo|e];
    [|cbn; eauto].
  rewrite put_profile_eq. cbn [body file].
  destruct (destructure rt (parsed_body i) "name") as [name|e]; [|cbn; eauto].
  destruct (falsy name); [cbn; eauto|].
  destruct fo as [f|].
  - destruct (write_failure env) as [e|]; [cbn; eauto|].
    rewrite query_eq.
    destruct (getConnection_failure env) as [e|]; [cbn; eauto|].
    destruct (execute_failure env) as [e|]; [cbn; eauto|].
    cbn. rewrite Hp. cbn. rewrite Hu. eauto.
  - rewrite query_eq.
    destruct (getConnection_failure env) as [e|]; [cbn; eauto|].
    destruct (execute_failure env) as [e|]; [cbn; eauto|].
    cbn. rewrite Hp. cbn. rewrite Hn. eauto.
Qed.

(** What [GET /api/profile] answers when the store answers: the first row
    of the table, or 404 on an empty table. *)
Lemma get_profile_reads_head (rt : Runtime) (env : Env) (i : Incoming)
    (w : World) :
  target i = GET_api_profile ->
  getConnection_failure env = None ->
  execute_failure env = None ->
  fst (app rt env i w) =
    match profile (db w) with
    | r :: _ => Return (mkResponse 200 (success (profile_object r)))
    | [] => Return (mkResponse 404 (failure "Profil tidak ditemukan"))
    end.
Proof.
  intros Ht Hc He. unfold app. rewrite Ht.
  unfold get_profile, try_catch, bind. rewrite query_eq, Hc, He.
  cbn [run_statement]. now destruct (profile (db w)).
Qed.

(** C10.  [GET /api/profile] answers with the first row of [profile],
    whatever its id, and [PUT /api/profile] changes rows with id 1 only.  So
    on a table whose first row has another id, the row GET reads is left as
    it is by every PUT, and GET reads the same row after the PUT as before
    it. *)
Theorem get_profile_row_untouched_by_put (rt : Runtime) (env env' : Env)
    (put get : Incoming) (w : World)
    (r : profile_row) (rest : list profile_row) :
  target put = PUT_api_profile ->
  target get = GET_api_profile ->
  getConnection_failure env' = None ->
  execute_failure env' = None ->
  profile (db w) = r :: rest ->
  p_id r <> 1 ->
  let w' := snd (app rt env put w) in
  fst (app rt env' get w) =
    Return (mkResponse 200
              (VObj [("success", VBool true); ("data", profile_object r)])) /\
  (exists rest', profile (db w') = r :: rest') /\
  fst (app rt env' get w') =
    Return (mkResponse 200
              (VObj [("success", VBool true); ("data", profile_object r)])).
Proof.
  intros Hput Hget Hc He Hp Hid w'.
  destruct (put_profile_keeps_foreign_head rt env put w r rest Hput Hp Hid)
    as [rest' Hp'].
  split; [|split].
  - rewrite (get_profile_reads_head rt env' get w Hget Hc He), Hp.
    reflexivity.
  - exists rest'. exact Hp'.
  - rewrite (get_profile_reads_head rt env' get w' Hget Hc He).
    subst w'. rewrite Hp'. reflexivity.
Qed.

Lemma get_profile_row_untouched_by_put_witness :
  let w' := snd (app sample_runtime sample_env
                   (mkIncoming PUT_api_profile ""
                      (VObj [("name", VStr "Budi")]) None)
                   guest_first_world) in
  fst (app sample_runtime sample_env
         (mkIncoming GET_api_profile "" VUndefined None) guest_first_world) =
    Return (mkResponse 200
              (VObj [("success", VBool true);
                     ("data", profile_object (mkProfile 2 (VStr "Tamu") VNull))]))
  /\
  (exists rest',
      profile (db w') = mkProfile 2 (VStr "Tamu") VNull :: rest') /\
  fst (app sample_runtime sample_env
         (mkIncoming GET_api_profile "" VUndefined None) w') =
    Return (mkResponse 200
              (VObj [("success", VBool true);
                     ("data", profile_object (mkProfile 2 (VStr "Tamu") VNull))])).
Proof.
  apply (get_profile_row_untouched_by_put sample_runtime sample_env sample_env
           (mkIncoming PUT_api_profile "" (VObj [("name", VStr "Budi")]) None)
           (mkIncoming GET_api_profile "" VUndefined None)
           guest_first_world
           (mkProfile 2 (VStr "Tamu") VNull)
           [mkProfile 1 (VStr "Ani") VNull]).
  - reflexivity.
  - reflexivity.
  - reflexivity.
  - reflexivity.
  - reflexivity.
  - discriminate.
Defined.

(** *** The envelope *)










Example conditional_get_history_is_304 :
  fst (serve sample_runtime sample_env (fun _ => true)
         (mkIncoming GET_api_history "" VUndefined None) sample_world) =
    Return (mkWire 304 None).
Proof. reflexivity. Qed.



(** *** Feedback *)

(** The handler of [POST /api/feedback], path by path. *)
Lemma post_feedback_eq (rt : Runtime) (env : Env) (req : Request) (w : World) :
  post_feedback rt env req w =
  match destructure rt (body req) "comment",
        destructure rt (body req) "rating" with
  | Return comment, Return rating =>
      if falsy comment || falsy rating
      then (Return (mkResponse 400 (failure "Komentar dan rating harus diisi")),
            w)
      else
        match less_than rt rating (VNum (Fin 1)) with
        | Throw e => (Return (mkResponse 500 (failure (message e))), w)
        | Return true =>
            (Return (mkResponse 400 (failure "Rating harus antara 1-4")), w)
        | Return false =>
            match greater_than rt rating (VNum (Fin 4)) with
            | Throw e => (Return (mkResponse 500 (failure (message e))), w)
            | Return true =>
                (Return (mkResponse 400 (failure "Rating harus antara 1-4")),
                 w)
            | Return false => insert_feedback env comment rating w
            end
        end
  | Throw e, _ | Return _, Throw e =>
      (Return (mkResponse 500 (failure (message e))), w)
  end.
Proof.
  unfold post_feedback, insert_feedback, try_catch, bind, lift, respond_500,
    ret.
  destruct (destructure rt (body req) "comment") as [comment|e];
    [|reflexivity].
  destruct (destructure rt (body req) "rating") as [rating|e]; [|reflexivity].
  destruct (falsy comment || falsy rating); [reflexivity|].
  destruct (less_than rt rating (VNum (Fin 1))) as [[|]|e]; try reflexivity.
  - destruct (greater_than rt rating (VNum (Fin 4))) as [[|]|e];
      try reflexivity.
    destruct (query env INSERT_feedback [comment; rating] w) as [[r|e] w'];
      reflexivity.
Qed.

(** A numeric rating passes the two guards exactly when it lies between 1
    and 4: then the INSERT is issued, and otherwise the response is 400 and
    nothing is touched. *)
Lemma post_feedback_numeric_rating (rt : Runtime) (env : Env) (i : Incoming)
    (w : World) (comment : value) (q : Q) :
  target i = POST_api_feedback ->
  destructure rt (parsed_body i) "comment" = Return comment ->
  ToBoolean comment = true ->
  destructure rt (parsed_body i) "rating" = Return (VNum (Fin q)) ->
  ((1 <= q /\ q <= 4)%Q ->
   app rt env i w = insert_feedback env comment (VNum (Fin q)) w) /\
  (~ (1 <= q /\ q <= 4)%Q ->
   exists msg : string,
     app rt env i w = (Return (mkResponse 400 (failure msg)), w)).
Proof.
  intros Ht Hc Hcomment Hr. unfold app. rewrite Ht, post_feedback_eq.
  cbn [body]. rewrite Hc, Hr. unfold falsy. rewrite Hcomment.
  cbn [negb orb ToBoolean less_than greater_than ToPrimitive IsLessThan
       ToNumber Number_lessThan of_undefined]. unfold Qltb.
  split.
  - intros [H1 H4].
    assert (H0 : Qeq_bool q 0 = false).
    { destruct (Qeq_bool q 0) eqn:E; [|reflexivity].
      apply Qeq_bool_eq in E. rewrite E in H1. now apply Qle_bool_iff in H1. }
    rewrite H0. apply Qle_bool_iff in H1, H4. rewrite H1, H4. reflexivity.
  - intros Hout.
    destruct (Qeq_bool q 0); [eexists; reflexivity|]. cbn [negb].
    destruct (Qle_bool 1 q) eqn:H1; [|eexists; reflexivity]. cbn [negb].
    destruct (Qle_bool q 4) eqn:H4; [|eexists; reflexivity].
    exfalso. apply Hout. split; now apply Qle_bool_iff.
Qed.

(** C1.  A rating that is not a number is not turned down: with the body
    [{"comment": "great", "rating": "abc"}] both comparisons [rating < 1]
    and [rating > 4] are comparisons with [NaN] and are false, so the
    request passes the guards and the INSERT is issued.  The response is 201
    with the rating echoed when the store executes the statement, and 500
    when it does not; it is never the 400 that a rating outside 1-4 is
    meant to get. *)
Theorem post_feedback_non_numeric_rating_is_inserted (rt : Runtime)
    (env : Env) (w : World) :
  StringToNumber rt "abc" = NaN ->
  let i := mkIncoming POST_api_feedback ""
             (VObj [("comment", VStr "great"); ("rating", VStr "abc")]) None in
  match getConnection_failure env, execute_failure env with
  | None, None =>
      let id := feedback_auto_increment (db w) in
      fst (app rt env i w) =
        Return (mkResponse 201
                  (VObj [("success", VBool true);
                         ("data", VObj [("id", num_of_Z id);
                                        ("comment", VStr "great");
                                        ("rating", VStr "abc")])])) /\
      feedback (db (snd (app rt env i w))) =
        (feedback (db w) ++ [mkFeedback id (VStr "great") (VStr "abc")])%list
  | None, Some e =>
      fst (app rt env i w) = Return (mkResponse 500 (failure (message e))) /\
      calls_since w (snd (app rt env i w)) =
        [EvGetConnection None;
         EvExecute INSERT_feedback [VStr "great"; VStr "abc"] (Some e);
         EvRelease]
  | Some e, _ =>
      fst (app rt env i w) = Return (mkResponse 500 (failure (message e)))
  end.
Proof.
  intros Hnan i. unfold app, i. cbn [target path_id parsed_body].
  rewrite post_feedback_eq. cbn [body destructure get_own String.eqb].
  cbn. rewrite Hnan. cbn. unfold insert_feedback. rewrite query_eq.
  destruct (getConnection_failure env) as [e|]; [reflexivity|].
  destruct (execute_failure env) as [e|]; cbn.
  - split; [reflexivity|]. unfold calls_since. cbn.
    now rewrite skipn_length_app.
  - split; reflexivity.
Qed.

Lemma post_feedback_non_numeric_rating_is_inserted_witness :
  fst (app sample_runtime sample_env
         (mkIncoming POST_api_feedback ""
            (VObj [("comment", VStr "great"); ("rating", VStr "abc")]) None)
         sample_world) =
    Return (mkResponse 201
              (VObj [("success", VBool true);
                     ("data", VObj [("id", num_of_Z 1);
                                    ("comment", VStr "great");
                                    ("rating", VStr "abc")])])) /\
  feedback (db (snd (app sample_runtime sample_env
                       (mkIncoming POST_api_feedback ""
                          (VObj [("comment", VStr "great");
                                 ("rating", VStr "abc")]) None)
                       sample_world))) =
    [mkFeedback 1 (VStr "great") (VStr "abc")].
Proof.
  apply (post_feedback_non_numeric_rating_is_inserted sample_runtime sample_env
           sample_world).
  reflexivity.
Defined.

(** The same happens with the boolean [true], which compares as 1. *)
Lemma post_feedback_boolean_rating_is_inserted (rt : Runtime) :
  fst (app rt sample_env
         (mkIncoming POST_api_feedback ""
            (VObj [("comment", VStr "great"); ("rating", VBool true)]) None)
         sample_world) =
    Return (mkResponse 201
              (VObj [("success", VBool true);
                     ("data", VObj [("id", num_of_Z 1);
                                    ("comment", VStr "great");
                                    ("rating", VBool true)])])).
Proof. reflexivity. Qed.

(** The ratings 0 and 5 are answered 400, 1 and 4 are inserted. *)
Example post_feedback_rating_0 (rt : Runtime) (env : Env) (w : World) :
  app rt env
      (mkIncoming POST_api_feedback ""
         (VObj [("comment", VStr "bad"); ("rating", num_of_Z 0)]) None) w =
    (Return (mkResponse 400 (failure "Komentar dan rating harus diisi")), w).
Proof. reflexivity. Qed.

Example post_feedback_rating_5 (rt : Runtime) (env : Env) (w : World) :
  app rt env
      (mkIncoming POST_api_feedback ""
         (VObj [("comment", VStr "bad"); ("rating", num_of_Z 5)]) None) w =
    (Return (mkResponse 400 (failure "Rating harus antara 1-4")), w).
Proof. reflexivity. Qed.

Example post_feedback_rating_4 (rt : Runtime) :
  fst (app rt sample_env
         (mkIncoming POST_api_feedback ""
            (VObj [("comment", VStr "great"); ("rating", num_of_Z 4)]) None)
         sample_world) =
    Return (mkResponse 201
              (success (VObj [("id", num_of_Z 1);
                              ("comment", VStr "great");
                              ("rating", num_of_Z 4)]))).
Proof. reflexivity. Qed.

(** ** Further properties of the handlers *)

(** *** The handlers, path by path *)

Lemma post_history_eq (rt : Runtime) (env : Env) (req : Request) (w : World) :
  post_history rt env req w =
  match destructure rt (body req) "title",
        destructure rt (body req) "message" with
  | Return title, Return msg =>
      if falsy title || falsy msg
      then (Return (mkResponse 400 (failure "Judul dan pesan harus diisi")), w)
      else
        match query env INSERT_history [title; msg] w with
        | (Return result, w') =>
            (Return (mkResponse 201
                       (success (VObj [("id", insertId_of result);
                                       ("title", title);
                                       ("message", msg)]))), w')
        | (Throw e, w') => (Return (mkResponse 500 (failure (message e))), w')
        end
  | Throw e, _ | Return _, Throw e =>
      (Return (mkResponse 500 (failure (message e))), w)
  end.
Proof.
  unfold post_history, try_catch, bind, lift, respond_500, ret.
  destruct (destructure rt (body req) "title") as [title|e]; [|reflexivity].
  destruct (destructure rt (body req) "message") as [msg|e]; [|reflexivity].
  destruct (falsy title || falsy msg); [reflexivity|].
  destruct (query env INSERT_history [title; msg] w) as [[r|e] w'];
    reflexivity.
Qed.

Lemma get_history_eq (env : Env) (req : Request) (w : World) :
  get_history env req w =
  match query env SELECT_history [] w with
  | (Return histories, w') =>
      (Return (mkResponse 200 (success (value_of histories))), w')
  | (Throw e, w') => (Return (mkResponse 500 (failure (message e))), w')
  end.
Proof.
  unfold get_history, try_catch, bind, respond_500, ret.
  destruct (query env SELECT_history [] w) as [[r|e] w']; reflexivity.
Qed.

(** What the two lookups answer with the rows they were given. *)
Lemma lookup_eq (rt : Runtime) (env : Env) (s : statement)
    (params : list value) (not_found : string) (w : World) :
  try_catch
    (bind (query env s params)
       (fun rows =>
          bind (lift (first_of rt rows))
            (fun row =>
               if falsy row
               then ret (res_status_json 404 (failure not_found))
               else ret (res_json (success row)))))
    respond_500 w =
  match query env s params w with
  | (Return rows, w') =>
      match first_of rt rows with
      | Return row =>
          if falsy row
          then (Return (mkResponse 404 (failure not_found)), w')
          else (Return (mkResponse 200 (success row)), w')
      | Throw e => (Return (mkResponse 500 (failure (message e))), w')
      end
  | (Throw e, w') => (Return (mkResponse 500 (failure (message e))), w')
  end.
Proof.
  unfold try_catch, bind, lift, respond_500, ret.
  destruct (query env s params w) as [[rows|e] w']; [|reflexivity].
  destruct (first_of rt rows) as [row|e]; [|reflexivity].
  destruct (falsy row); reflexivity.
Qed.

(** Splits the goal on the innermost scrutinee of a [match]. *)
Ltac split_path :=
  match goal with
  | |- context [match ?x with _ => _ end] =>
      lazymatch x with
      | context [match _ with _ => _ end] => fail
      | _ => destruct x eqn:?
      end
  end.

(** Exposes every path of [app] on a request. *)
Ltac app_paths :=
  unfold app;
  match goal with
  | |- context [target ?i] => destruct (target i) eqn:?
  end;
  try match goal with
      | |- context [upload_single ?fld ?p] =>
          let H := fresh "Hupload" in
          destruct (upload_single fld p) eqn:H;
          [apply upload_single_accepts in H; subst|]
      end;
  unfold get_history_id, get_profile, error_middleware;
  rewrite ?post_history_eq, ?get_history_eq, ?lookup_eq, ?put_profile_eq,
    ?post_feedback_eq;
  unfold insert_feedback, ret;
  cbn [body file params_id];
  repeat first
    [ rewrite query_eq
    | progress cbn [run_statement]
    | split_path ].

(** X1.  A request answered 400 has touched nothing: no connection was
    acquired, no statement executed, nothing written, and the world after
    the request is the world before it. *)
Theorem bad_request_touches_nothing (rt : Runtime) (env : Env)
    (i : Incoming) (w w' : World) (r : Response) :
  app rt env i w = (Return r, w') ->
  status r = 400 ->
  w' = w.
Proof.
  revert r w'. app_paths; intros ? ? [= <- <-] Hs; cbn in Hs;
    first [reflexivity | discriminate Hs].
Qed.

Lemma bad_request_touches_nothing_witness :
  snd (app sample_runtime sample_env
         (mkIncoming PUT_api_profile "" (VObj [("name", VStr "")])
            (Some avatar))
         seeded_world) = seeded_world.
Proof.
  apply (bad_request_touches_nothing sample_runtime sample_env
           (mkIncoming PUT_api_profile "" (VObj [("name", VStr "")])
              (Some avatar))
           seeded_world _
           (mkResponse 400 (failure "Name is required"))).
  - reflexivity.
  - reflexivity.
Defined.

(** *** Connections and calls *)

(** X2.  No request leaks a connection: whatever the endpoint, the body and
    the collaborators do, as many connections are handed out after the
    request as before it. *)
Theorem app_returns_every_connection (rt : Runtime) (env : Env)
    (i : Incoming) (w : World) :
  leased (snd (app rt env i w)) = leased w.
Proof. app_paths; reflexivity. Qed.

Lemma calls_since_app (w w' : World) (evs : list event) :
  trace w' = (trace w ++ evs)%list -> calls_since w w' = evs.
Proof. intros H. unfold calls_since. rewrite H. apply skipn_length_app. Qed.

Lemma calls_since_same (w w' : World) :
  trace w' = trace w -> calls_since w w' = [].
Proof. intros H. unfold calls_since. rewrite H. apply skipn_length_self. Qed.

Ltac settle_calls :=
  first
    [ rewrite calls_since_same by reflexivity
    | erewrite calls_since_app
        by (cbn; rewrite <- ?app_assoc; cbn; reflexivity) ].

(** X3.  The calls a request makes to its collaborators are at most one
    write to the bucket followed by at most one query, and a query is either
    a failed [getConnection] or exactly acquire, one [execute], release.
    Only [PUT /api/profile] writes to the bucket, and after a failed write no
    query follows. *)
Theorem calls_of_a_request (rt : Runtime) (env : Env) (i : Incoming)
    (w : World) :
  exists p q : list event,
    calls_since w (snd (app rt env i w)) = (p ++ q)%list /\
    write_calls p /\
    query_calls q /\
    (p <> [] -> target i = PUT_api_profile) /\
    (forall name e, p = [EvWrite name (Some e)] -> q = []).
Proof.
  unfold write_calls, query_calls.
  app_paths; cbn [snd]; settle_calls;
    first
      [ exists [], []; repeat split; auto; congruence
      | exists [];
        eexists; (split; [reflexivity|]); repeat split; eauto 8; congruence
      | eexists [_]; exists [];
        (split; [reflexivity|]); repeat split; eauto 8; congruence
      | eexists [_]; eexists;
        (split; [reflexivity|]); repeat split; eauto 8; congruence ].
Qed.

(** *** What the requests leave alone *)

(** X4.  The three GET endpoints are read-only: the tables and the bucket
    are the same after the request as before it, whatever the store
    answers. *)
Theorem reads_change_nothing (rt : Runtime) (env : Env) (i : Incoming)
    (w : World) :
  target i = GET_api_history \/ target i = GET_api_history_id \/
  target i = GET_api_profile ->
  db (snd (app rt env i w)) = db w /\
  bucket (snd (app rt env i w)) = bucket w.
Proof.
  intros Ht. app_paths; try (split; reflexivity);
    destruct Ht as [Ht|[Ht|Ht]]; congruence.
Qed.

Lemma reads_change_nothing_witness :
  db (snd (app sample_runtime sample_env
             (mkIncoming GET_api_profile "" VUndefined None) seeded_world)) =
    db seeded_world /\
  bucket (snd (app sample_runtime sample_env
                 (mkIncoming GET_api_profile "" VUndefined None)
                 seeded_world)) = bucket seeded_world.
Proof.
  apply (reads_change_nothing sample_runtime sample_env
           (mkIncoming GET_api_profile "" VUndefined None) seeded_world).
  right. right. reflexivity.
Defined.

Lemma map_p_id_set_name (name : value) (rows : list profile_row) :
  map p_id (map (set_name name) rows) = map p_id rows.
Proof.
  induction rows as [|x rows IH]; cbn; [reflexivity|].
  rewrite IH. unfold set_name. now destruct (p_id x =? 1).
Qed.

Lemma map_p_id_set_name_url (name url : value) (rows : list profile_row) :
  map p_id (map (set_name_url name url) rows) = map p_id rows.
Proof.
  induction rows as [|x rows IH]; cbn; [reflexivity|].
  rewrite IH. unfold set_name_url. now destruct (p_id x =? 1).
Qed.

(** X5.  No request rewrites or deletes a history or a feedback row, and
    none creates or deletes a profile row: after any request the history
    and feedback tables are the old ones with at most one row appended in
    all, and the profile table has the same ids in the same order. *)
Theorem tables_are_append_only (rt : Runtime) (env : Env) (i : Incoming)
    (w : World) :
  exists (hs : list history_row) (fs : list feedback_row),
    history (db (snd (app rt env i w))) = (history (db w) ++ hs)%list /\
    feedback (db (snd (app rt env i w))) = (feedback (db w) ++ fs)%list /\
    (List.length hs + List.length fs <= 1)%nat /\
    map p_id (profile (db (snd (app rt env i w)))) = map p_id (profile (db w)).
Proof.
  app_paths; cbn [snd db after_query record history feedback profile];
    rewrite ?map_p_id_set_name, ?map_p_id_set_name_url;
    first
      [ solve [exists [], []; rewrite !app_nil_r; repeat split; auto]
      | solve [eexists [_], []; rewrite ?app_nil_r; repeat split;
               cbn; auto]
      | solve [exists []; eexists [_]; rewrite ?app_nil_r; repeat split;
               cbn; auto] ].
Qed.

(** X6.  Only a request answered 200 or 201 can have changed a table: after
    any other response (400, 404, 500) the three tables are as they were. *)
Theorem failed_request_changes_no_table (rt : Runtime) (env : Env)
    (i : Incoming) (w w' : World) (r : Response) :
  app rt env i w = (Return r, w') ->
  status r <> 200 ->
  status r <> 201 ->
  db w' = db w.
Proof.
  revert r w'. app_paths; intros ? ? [= <- <-] H200 H201; cbn in *;
    first [reflexivity | congruence].
Qed.

Lemma failed_request_changes_no_table_witness :
  db (snd (app sample_runtime env_write_down
             (mkIncoming PUT_api_profile "" (VObj [("name", VStr "Budi")])
                (Some avatar))
             seeded_world)) = db seeded_world.
Proof.
  apply (failed_request_changes_no_table sample_runtime env_write_down
           (mkIncoming PUT_api_profile "" (VObj [("name", VStr "Budi")])
              (Some avatar))
           seeded_world _
           (mkResponse 500 (failure "socket hang up"))).
  - reflexivity.
  - discriminate.
  - discriminate.
Defined.

(** *** Creating records *)

(** X7.  A [POST /api/history] answered 201 has appended exactly one row to
    [history]: its title and message are the truthy values found in the
    body, its id is the one the store generated and the response echoes, and
    the other two tables are untouched. *)
Theorem created_history_is_stored_as_sent (rt : Runtime) (env : Env)
    (i : Incoming) (w w' : World) (r : Response) :
  target i = POST_api_history ->
  app rt env i w = (Return r, w') ->
  status r = 201 ->
  exists title msg : value,
    destructure rt (parsed_body i) "title" = Return title /\
    destructure rt (parsed_body i) "message" = Return msg /\
    ToBoolean title = true /\
    ToBoolean msg = true /\
    let id := history_auto_increment (db w) in
    json r =
      VObj [("success", VBool true);
            ("data", VObj [("id", num_of_Z id); ("title", title);
                           ("message", msg)])] /\
    history (db w') =
      (history (db w) ++ [mkHistory id title msg (CURRENT_TIMESTAMP env)])%list
    /\
    profile (db w') = profile (db w) /\
    feedback (db w') = feedback (db w).
Proof.
  intros Ht. revert r w'. unfold app. rewrite Ht, post_history_eq.
  cbn [body]. unfold falsy.
  destruct (destructure rt (parsed_body i) "title") as [title|e];
    [|intros ? ? [= <- <-]; discriminate].
  destruct (destructure rt (parsed_body i) "message") as [msg|e];
    [|intros ? ? [= <- <-]; discriminate].
  destruct (ToBoolean title) eqn:Htitle;
    [|intros ? ? [= <- <-]; discriminate].
  destruct (ToBoolean msg) eqn:Hmsg;
    [|intros ? ? [= <- <-]; discriminate].
  cbn [negb orb]. rewrite query_eq.
  destruct (getConnection_failure env);
    [intros ? ? [= <- <-]; discriminate|].
  destruct (execute_failure env); [intros ? ? [= <- <-]; discriminate|].
  cbn [run_statement]. intros ? ? [= <- <-] _.
  exists title, msg. cbn. repeat split; reflexivity || assumption.
Qed.

Lemma created_history_is_stored_as_sent_witness :
  exists title msg : value,
    Return (VStr "Halo") = Return title /\
    Return (VStr "Apa kabar") = Return msg /\
    ToBoolean title = true /\
    ToBoolean msg = true /\
    json (mkResponse 201
            (success (VObj [("id", num_of_Z 1); ("title", VStr "Halo");
                            ("message", VStr "Apa kabar")]))) =
      VObj [("success", VBool true);
            ("data", VObj [("id", num_of_Z 1); ("title", title);
                           ("message", msg)])] /\
    history (db (snd (app sample_runtime sample_env
                        (mkIncoming POST_api_history ""
                           (VObj [("title", VStr "Halo");
                                  ("message", VStr "Apa kabar")]) None)
                        sample_world))) =
      [mkHistory 1 title msg 1730000000] /\
    profile (db (snd (app sample_runtime sample_env
                        (mkIncoming POST_api_history ""
                           (VObj [("title", VStr "Halo");
                                  ("message", VStr "Apa kabar")]) None)
                        sample_world))) = [] /\
    feedback (db (snd (app sample_runtime sample_env
                         (mkIncoming POST_api_history ""
                            (VObj [("title", VStr "Halo");
                                   ("message", VStr "Apa kabar")]) None)
                         sample_world))) = [].
Proof.
  apply (created_history_is_stored_as_sent sample_runtime sample_env
           (mkIncoming POST_api_history ""
              (VObj [("title", VStr "Halo"); ("message", VStr "Apa kabar")])
              None)
           sample_world _
           (mkResponse 201
              (success (VObj [("id", num_of_Z 1); ("title", VStr "Halo");
                              ("message", VStr "Apa kabar")])))).
  - reflexivity.
  - reflexivity.
  - reflexivity.
Defined.

(** X8.  A [POST /api/feedback] answered 201 has appended exactly one row
    to [feedback], holding the comment and the rating of the body as they
    were sent, under the id the response echoes; the other two tables are
    untouched. *)
Theorem created_feedback_is_stored_as_sent (rt : Runtime) (env : Env)
    (i : Incoming) (w w' : World) (r : Response) :
  target i = POST_api_feedback ->
  app rt env i w = (Return r, w') ->
  status r = 201 ->
  exists comment rating : value,
    destructure rt (parsed_body i) "comment" = Return comment /\
    destructure rt (parsed_body i) "rating" = Return rating /\
    ToBoolean comment = true /\
    ToBoolean rating = true /\
    let id := feedback_auto_increment (db w) in
    json r =
      VObj [("success", VBool true);
            ("data", VObj [("id", num_of_Z id); ("comment", comment);
                           ("rating", rating)])] /\
    feedback (db w') =
      (feedback (db w) ++ [mkFeedback id comment rating])%list /\
    history (db w') = history (db w) /\
    profile (db w') = profile (db w).
Proof.
  intros Ht. revert r w'. unfold app. rewrite Ht, post_feedback_eq.
  cbn [body]. unfold falsy, insert_feedback.
  destruct (destructure rt (parsed_body i) "comment") as [comment|e];
    [|intros ? ? [= <- <-]; discriminate].
  destruct (destructure rt (parsed_body i) "rating") as [rating|e];
    [|intros ? ? [= <- <-]; discriminate].
  destruct (ToBoolean comment) eqn:Hcomment;
    [|intros ? ? [= <- <-]; discriminate].
  destruct (ToBoolean rating) eqn:Hrating;
    [|intros ? ? [= <- <-]; discriminate].
  cbn [negb orb].
  destruct (less_than rt rating (VNum (Fin 1))) as [[|]|e];
    try (intros ? ? [= <- <-]; discriminate).
  destruct (greater_than rt rating (VNum (Fin 4))) as [[|]|e];
    try (intros ? ? [= <- <-]; discriminate).
  rewrite query_eq.
  destruct (getConnection_failure env);
    [intros ? ? [= <- <-]; discriminate|].
  destruct (execute_failure env); [intros ? ? [= <- <-]; discriminate|].
  cbn [run_statement]. intros ? ? [= <- <-] _.
  exists comment, rating. cbn. repeat split; reflexivity || assumption.
Qed.

Lemma created_feedback_is_stored_as_sent_witness :
  exists comment rating : value,
    Return (VStr "great") = Return comment /\
    Return (num_of_Z 4) = Return rating /\
    ToBoolean comment = true /\
    ToBoolean rating = true /\
    json (mkResponse 201
            (success (VObj [("id", num_of_Z 1); ("comment", VStr "great");
                            ("rating", num_of_Z 4)]))) =
      VObj [("success", VBool true);
            ("data", VObj [("id", num_of_Z 1); ("comment", comment);
                           ("rating", rating)])] /\
    feedback (db (snd (app sample_runtime sample_env
                         (mkIncoming POST_api_feedback ""
                            (VObj [("comment", VStr "great");
                                   ("rating", num_of_Z 4)]) None)
                         sample_world))) =
      [mkFeedback 1 comment rating] /\
    history (db (snd (app sample_runtime sample_env
                        (mkIncoming POST_api_feedback ""
                           (VObj [("comment", VStr "great");
                                  ("rating", num_of_Z 4)]) None)
                        sample_world))) = [] /\
    profile (db (snd (app sample_runtime sample_env
                        (mkIncoming POST_api_feedback ""
                           (VObj [("comment", VStr "great");
                                  ("rating", num_of_Z 4)]) None)
                        sample_world))) = [].
Proof.
  apply (created_feedback_is_stored_as_sent sample_runtime sample_env
           (mkIncoming POST_api_feedback ""
              (VObj [("comment", VStr "great"); ("rating", num_of_Z 4)])
              None)
           sample_world _
           (mkResponse 201
              (success (VObj [("id", num_of_Z 1); ("comment", VStr "great");
                              ("rating", num_of_Z 4)])))).
  - reflexivity.
  - reflexivity.
  - reflexivity.
Defined.

(** *** The bucket and the profile *)

(** What [upload.single] lets through. *)
Lemma upload_single_accepted (field : string) (f : File) (fo : option File) :
  upload_single field (Some f) = Return fo ->
  (fo = None /\ originalname f = "") \/
  (fo = Some f /\
   fieldname f = field /\
   In (mimetype f) allowedMimes /\
   Z.of_nat (List.length (buffer f)) <= 5 * 1024 * 1024).
Proof.
  unfold upload_single, fileFilter, named_part.
  destruct (String.eqb_spec (originalname f) "") as [Hn|Hn].
  { intros [= <-]. now left. }
  destruct (fieldname f =? field)%string eqn:Hf; cbn [negb]; [|discriminate].
  destruct (includes allowedMimes (mimetype f)) eqn:Hm; [|discriminate].
  destruct (limits_fileSize <=? Z.of_nat (List.length (buffer f))) eqn:Hs;
    [discriminate|].
  intros [= <-]. apply String.eqb_eq in Hf. apply includes_In in Hm.
  apply Z.leb_gt in Hs. unfold limits_fileSize in Hs. right.
  repeat split; auto. lia.
Qed.

(** X9.  Whatever reaches the bucket came through the multipart middleware:
    a request either leaves the bucket as it was, or it is a
    [PUT /api/profile] whose file part came under the field
    [profile_picture], has one of the three allowed MIME types and is at
    most 5 MiB long, and the bucket gained exactly one object: that file's
    buffer, with its MIME type as content type, under
    [profiles/<Date.now()>-<originalname>]. *)
Theorem bucket_only_receives_accepted_images (rt : Runtime) (env : Env)
    (i : Incoming) (w : World) :
  bucket (snd (app rt env i w)) = bucket w \/
  exists f : File,
    target i = PUT_api_profile /\
    file_part i = Some f /\
    fieldname f = "profile_picture" /\
    In (mimetype f) ["image/jpeg"; "image/png"; "image/jpg"] /\
    Z.of_nat (List.length (buffer f)) <= 5 * 1024 * 1024 /\
    bucket (snd (app rt env i w)) =
      mkObject ("profiles/" ++ decimal (Date_now env) ++ "-" ++ originalname f)
               (mimetype f) (buffer f) :: bucket w.
Proof.
  destruct (target i) eqn:Ht.
  1-4, 6: left; app_paths; first [reflexivity | congruence].
  destruct (file_part i) as [f|] eqn:Hf.
  - destruct (upload_single "profile_picture" (Some f)) as [fo|e] eqn:Hu.
    + unfold app. rewrite Ht, Hf, Hu, put_profile_eq. cbn [body file].
      destruct (upload_single_accepted _ _ _ Hu)
        as [[-> _]|(-> & Hfield & Hm & Hs)];
        repeat first [rewrite query_eq | progress cbn [run_statement]
                     | split_path];
        first [ now left
              | right; exists f; repeat split; auto ].
    + left. unfold app. rewrite Ht, Hf, Hu. reflexivity.
  - left. unfold app. rewrite Ht, Hf. cbn [upload_single named_part].
    rewrite put_profile_eq. cbn [body file].
    repeat first [rewrite query_eq | progress cbn [run_statement]
                 | split_path];
      reflexivity.
Qed.

(** X10.  The upload is not undone when the UPDATE fails: if the file was
    accepted and written and the store then fails, the response is 500 with
    the store's message, the profile table is as it was, and the bucket
    keeps the new object, which no row refers to. *)
Theorem failed_update_leaves_the_object (rt : Runtime) (env : Env)
    (i : Incoming) (f : File) (name : value) (e : Error) (w : World) :
  target i = PUT_api_profile ->
  file_part i = Some f ->
  upload_single "profile_picture" (Some f) = Return (Some f) ->
  destructure rt (parsed_body i) "name" = Return name ->
  ToBoolean name = true ->
  write_failure env = None ->
  getConnection_failure env = Some e \/
  (getConnection_failure env = None /\ execute_failure env = Some e) ->
  fst (app rt env i w) =
    Return (mkResponse 500
              (VObj [("success", VBool false);
                     ("message", VStr (message e))])) /\
  db (snd (app rt env i w)) = db w /\
  bucket (snd (app rt env i w)) =
    mkObject (blob_name env f) (mimetype f) (buffer f) :: bucket w.
Proof.
  intros Ht Hf Hu Hn Hname Hw Hstore. unfold app.
  rewrite Ht, Hf, Hu, put_profile_eq. cbn [body file].
  rewrite Hn. unfold falsy. rewrite Hname, Hw. cbn [negb]. rewrite query_eq.
  destruct Hstore as [->|[-> ->]]; repeat split; reflexivity.
Qed.

Lemma failed_update_leaves_the_object_witness :
  fst (app sample_runtime
         (mkEnv "handlips-bucket" 1730000000000 1730000000 sample_id_equals
                None (Some store_down) None)
         (mkIncoming PUT_api_profile "" (VObj [("name", VStr "Budi")])
            (Some avatar))
         seeded_world) =
    Return (mkResponse 500
              (VObj [("success", VBool false);
                     ("message", VStr "Connection lost")])) /\
  db (snd (app sample_runtime
             (mkEnv "handlips-bucket" 1730000000000 1730000000
                    sample_id_equals None (Some store_down) None)
             (mkIncoming PUT_api_profile "" (VObj [("name", VStr "Budi")])
                (Some avatar))
             seeded_world)) = db seeded_world /\
  bucket (snd (app sample_runtime
                 (mkEnv "handlips-bucket" 1730000000000 1730000000
                        sample_id_equals None (Some store_down) None)
                 (mkIncoming PUT_api_profile "" (VObj [("name", VStr "Budi")])
                    (Some avatar))
                 seeded_world)) =
    [mkObject "profiles/1730000000000-me.png" "image/png"
              [Byte.x89; Byte.x50]].
Proof.
  apply (failed_update_leaves_the_object sample_runtime
           (mkEnv "handlips-bucket" 1730000000000 1730000000 sample_id_equals
                  None (Some store_down) None)
           (mkIncoming PUT_api_profile "" (VObj [("name", VStr "Budi")])
              (Some avatar))
           avatar (VStr "Budi") store_down seeded_world).
  - reflexivity.
  - reflexivity.
  - reflexivity.
  - reflexivity.
  - reflexivity.
  - reflexivity.
  - right. split; reflexivity.
Defined.

(** X11.  A file part that carries a file name, comes under the expected
    field and has a MIME type that is not allowed is answered with status
    500, not 400, and with the message of the file filter,
    ["File harus berupa gambar."]. *)
Theorem non_image_is_answered_500_with_filter_message (rt : Runtime)
    (env : Env) (i : Incoming) (f : File) (w : World) :
  target i = PUT_api_profile ->
  file_part i = Some f ->
  originalname f <> "" ->
  fieldname f = "profile_picture" ->
  ~ In (mimetype f) ["image/jpeg"; "image/png"; "image/jpg"] ->
  app rt env i w =
    (Return (mkResponse 500
               (VObj [("success", VBool false);
                      ("message", VStr "File harus berupa gambar.")])),
     w).
Proof.
  intros Ht Hf Hname Hfield Hm. unfold app. rewrite Ht, Hf.
  unfold upload_single, fileFilter.
  rewrite (named_part_named f Hname), Hfield, String.eqb_refl. cbn [negb].
  destruct (includes allowedMimes (mimetype f)) eqn:E; [|reflexivity].
  exfalso. apply Hm. now apply includes_In.
Qed.

Lemma non_image_is_answered_500_with_filter_message_witness :
  app sample_runtime sample_env
      (mkIncoming PUT_api_profile "" (VObj [("name", VStr "Budi")])
         (Some (mkFile "profile_picture" "cv.pdf" "application/pdf" [])))
      seeded_world =
    (Return (mkResponse 500
               (VObj [("success", VBool false);
                      ("message", VStr "File harus berupa gambar.")])),
     seeded_world).
Proof.
  apply (non_image_is_answered_500_with_filter_message sample_runtime
           sample_env
           (mkIncoming PUT_api_profile "" (VObj [("name", VStr "Budi")])
              (Some (mkFile "profile_picture" "cv.pdf" "application/pdf" [])))
           (mkFile "profile_picture" "cv.pdf" "application/pdf" [])
           seeded_world).
  - reflexivity.
  - reflexivity.
  - discriminate.
  - reflexivity.
  - cbn. intros [H|[H|[H|[]]]]; discriminate.
Defined.

(** X12.  What [PUT /api/profile] stored is what [GET /api/profile] reads
    when the first row of the table is the row with id 1: after a PUT
    answered 200, a GET that the store answers returns that row with the new
    name and, as picture, the URL of the file just uploaded, or the picture
    it had before when the PUT carried no file (or a file part without a
    file name). *)
Theorem put_then_get_profile (rt : Runtime) (env env' : Env)
    (put get : Incoming) (w w' : World) (r : Response)
    (row : profile_row) (rest : list profile_row) :
  target put = PUT_api_profile ->
  target get = GET_api_profile ->
  profile (db w) = row :: rest ->
  p_id row = 1 ->
  app rt env put w = (Return r, w') ->
  status r = 200 ->
  getConnection_failure env' = None ->
  execute_failure env' = None ->
  exists name : value,
    destructure rt (parsed_body put) "name" = Return name /\
    fst (app rt env' get w') =
      Return (mkResponse 200
                (VObj [("success", VBool true);
                       ("data",
                        VObj [("id", num_of_Z 1);
                              ("name", name);
                              ("profile_picture_url",
                               match named_part (file_part put) with
                               | Some f =>
                                   VStr ("https://storage.googleapis.com/"
                                         ++ BUCKET_NAME env ++ "/profiles/"
                                         ++ decimal (Date_now env) ++ "-"
                                         ++ originalname f)
                               | None => p_profile_picture_url row
                               end)])])).
Proof.
  intros Hput Hget Hp Hid Happ Hs Hc He.
  assert (Hr : fst (app rt env put w) = Return r) by now rewrite Happ.
  destruct (put_profile_success rt env put w r Hput Hr Hs)
    as (name & Hn & _ & H).
  exists name. split; [exact Hn|].
  rewrite (get_profile_reads_head rt env' get w' Hget Hc He).
  destruct (named_part (file_part put)) as [f|]; rewrite H in Happ;
    injection Happ as _ <-; cbn; rewrite Hp; cbn;
    unfold set_name, set_name_url; rewrite Hid; reflexivity.
Qed.

Lemma put_then_get_profile_witness :
  exists name : value,
    Return (VStr "Budi") = Return name /\
    fst (app sample_runtime sample_env
           (mkIncoming GET_api_profile "" VUndefined None)
           (snd (app sample_runtime sample_env
                   (mkIncoming PUT_api_profile ""
                      (VObj [("name", VStr "Budi")]) None)
                   seeded_world))) =
      Return (mkResponse 200
                (VObj [("success", VBool true);
                       ("data",
                        VObj [("id", num_of_Z 1);
                              ("name", name);
                              ("profile_picture_url",
                               VStr "https://example.org/ani.png")])])).
Proof.
  apply (put_then_get_profile sample_runtime sample_env sample_env
           (mkIncoming PUT_api_profile "" (VObj [("name", VStr "Budi")]) None)
           (mkIncoming GET_api_profile "" VUndefined None)
           seeded_world
           (snd (app sample_runtime sample_env
                   (mkIncoming PUT_api_profile ""
                      (VObj [("name", VStr "Budi")]) None)
                   seeded_world))
           (mkResponse 200 (profile_data (VStr "Budi") VNull))
           (mkProfile 1 (VStr "Ani") (VStr "https://example.org/ani.png"))
           [mkProfile 2 (VStr "Tamu") VNull]).
  - reflexivity.
  - reflexivity.
  - reflexivity.
  - reflexivity.
  - reflexivity.
  - reflexivity.
  - reflexivity.
  - reflexivity.
Defined.

Lemma set_name_after_set_name_url (n1 n2 url : value) (x : profile_row) :
  set_name n2 (set_name_url n1 url x) = set_name_url n2 url x.
Proof.
  unfold set_name, set_name_url.
  destruct (p_id x =? 1) eqn:E; cbn; now rewrite E.
Qed.

(** X13.  Two updates compose as one: an upload (of a file part with a file
    name) followed by a name-only update, both answered 200, leave the profile table as a single update
    with the second name and the first request's picture URL would. *)
Theorem name_only_update_keeps_uploaded_picture (rt : Runtime)
    (env1 env2 : Env) (i1 i2 : Incoming) (f : File)
    (w w1 w2 : World) (r1 r2 : Response) :
  target i1 = PUT_api_profile ->
  named_part (file_part i1) = Some f ->
  app rt env1 i1 w = (Return r1, w1) ->
  status r1 = 200 ->
  target i2 = PUT_api_profile ->
  named_part (file_part i2) = None ->
  app rt env2 i2 w1 = (Return r2, w2) ->
  status r2 = 200 ->
  exists name2 : value,
    destructure rt (parsed_body i2) "name" = Return name2 /\
    profile (db w2) =
      map (set_name_url name2
             (VStr ("https://storage.googleapis.com/" ++ BUCKET_NAME env1
                    ++ "/profiles/" ++ decimal (Date_now env1) ++ "-"
                    ++ originalname f)))
          (profile (db w)).
Proof.
  intros Ht1 Hf1 Happ1 Hs1 Ht2 Hf2 Happ2 Hs2.
  assert (Hr1 : fst (app rt env1 i1 w) = Return r1) by now rewrite Happ1.
  assert (Hr2 : fst (app rt env2 i2 w1) = Return r2) by now rewrite Happ2.
  destruct (put_profile_success rt env1 i1 w r1 Ht1 Hr1 Hs1)
    as (name1 & _ & _ & H1).
  destruct (put_profile_success rt env2 i2 w1 r2 Ht2 Hr2 Hs2)
    as (name2 & Hn2 & _ & H2).
  exists name2. split; [exact Hn2|].
  rewrite Hf1 in H1. rewrite Hf2 in H2.
  rewrite H1 in Happ1. injection Happ1 as _ <-.
  rewrite H2 in Happ2. injection Happ2 as _ <-.
  cbn. rewrite map_map. apply map_ext. intros x.
  apply set_name_after_set_name_url.
Qed.

Lemma name_only_update_keeps_uploaded_picture_witness :
  exists name2 : value,
    Return (VStr "Citra") = Return name2 /\
    profile (db (snd (app sample_runtime sample_env
                        (mkIncoming PUT_api_profile ""
                           (VObj [("name", VStr "Citra")]) None)
                        (snd (app sample_runtime sample_env
                                (mkIncoming PUT_api_profile ""
                                   (VObj [("name", VStr "Budi")])
                                   (Some avatar))
                                seeded_world))))) =
      map (set_name_url name2
             (VStr "https://storage.googleapis.com/handlips-bucket/profiles/1730000000000-me.png"))
          (profile (db seeded_world)).
Proof.
  apply (name_only_update_keeps_uploaded_picture sample_runtime
           sample_env sample_env
           (mkIncoming PUT_api_profile "" (VObj [("name", VStr "Budi")])
              (Some avatar))
           (mkIncoming PUT_api_profile "" (VObj [("name", VStr "Citra")]) None)
           avatar seeded_world
           (snd (app sample_runtime sample_env
                   (mkIncoming PUT_api_profile ""
                      (VObj [("name", VStr "Budi")]) (Some avatar))
                   seeded_world))
           (snd (app sample_runtime sample_env
                   (mkIncoming PUT_api_profile ""
                      (VObj [("name", VStr "Citra")]) None)
                   (snd (app sample_runtime sample_env
                           (mkIncoming PUT_api_profile ""
                              (VObj [("name", VStr "Budi")]) (Some avatar))
                           seeded_world))))
           (mkResponse 200
              (profile_data (VStr "Budi")
                 (VStr (publicUrl sample_env avatar))))
           (mkResponse 200 (profile_data (VStr "Citra") VNull))).
  - reflexivity.
  - reflexivity.
  - reflexivity.
  - reflexivity.
  - reflexivity.
  - reflexivity.
  - reflexivity.
  - reflexivity.
Defined.

Lemma set_name_without_row_1 (name : value) (rows : list profile_row) :
  (forall x, In x rows -> p_id x <> 1) -> map (set_name name) rows = rows.
Proof.
  induction rows as [|x rows IH]; intros H; cbn; [reflexivity|].
  rewrite IH by (intros y Hy; apply H; now right).
  unfold set_name.
  destruct (p_id x =? 1) eqn:E; [|reflexivity].
  apply Z.eqb_eq in E. now destruct (H x (or_introl eq_refl)).
Qed.

(** X14.  The update does not look at how many rows it changed: when no
    profile row has id 1, a valid name-only [PUT /api/profile] that the store
    executes is still answered 200 with the name echoed, and the table is
    exactly as it was. *)
Theorem put_profile_without_row_1_is_200_and_void (rt : Runtime) (env : Env)
    (i : Incoming) (name : value) (w : World) :
  target i = PUT_api_profile ->
  file_part i = None ->
  destructure rt (parsed_body i) "name" = Return name ->
  ToBoolean name = true ->
  getConnection_failure env = None ->
  execute_failure env = None ->
  (forall x, In x (profile (db w)) -> p_id x <> 1) ->
  fst (app rt env i w) =
    Return (mkResponse 200
              (VObj [("success", VBool true);
                     ("data", VObj [("name", name);
                                    ("profile_picture_url", VNull)])])) /\
  profile (db (snd (app rt env i w))) = profile (db w).
Proof.
  intros Ht Hf Hn Hname Hc He Hrows. unfold app. rewrite Ht, Hf.
  cbn [upload_single named_part]. rewrite put_profile_eq. cbn [body file].
  rewrite Hn. unfold falsy. rewrite Hname. cbn [negb].
  rewrite query_eq, Hc, He. cbn.
  split; [reflexivity|]. now apply set_name_without_row_1.
Qed.

Lemma put_profile_without_row_1_is_200_and_void_witness :
  fst (app sample_runtime sample_env
         (mkIncoming PUT_api_profile "" (VObj [("name", VStr "Budi")]) None)
         sample_world) =
    Return (mkResponse 200
              (VObj [("success", VBool true);
                     ("data", VObj [("name", VStr "Budi");
                                    ("profile_picture_url", VNull)])])) /\
  profile (db (snd (app sample_runtime sample_env
                      (mkIncoming PUT_api_profile ""
                         (VObj [("name", VStr "Budi")]) None)
                      sample_world))) = [].
Proof.
  apply (put_profile_without_row_1_is_200_and_void sample_runtime sample_env
           (mkIncoming PUT_api_profile "" (VObj [("name", VStr "Budi")]) None)
           (VStr "Budi") sample_world).
  - reflexivity.
  - reflexivity.
  - reflexivity.
  - reflexivity.
  - reflexivity.
  - reflexivity.
  - intros x [].
Defined.

(** *** Reading history *)

Lemma insert_desc_perm (r : history_row) (l : list history_row) :
  Permutation (insert_desc r l) (r :: l).
Proof.
  induction l as [|x l IH]; cbn; [reflexivity|].
  destruct (h_created_at x <? h_created_at r); [reflexivity|].
  rewrite IH. apply perm_swap.
Qed.

Lemma order_by_created_at_desc_perm (l : list history_row) :
  Permutation (order_by_created_at_desc l) l.
Proof.
  unfold order_by_created_at_desc. induction l as [|x l IH]; cbn.
  - reflexivity.
  - rewrite insert_desc_perm. now constructor.
Qed.

Lemma insert_desc_sorted (r : history_row) (l : list history_row) :
  StronglySorted not_older l -> StronglySorted not_older (insert_desc r l).
Proof.
  induction l as [|x l IH]; intros Hs; cbn.
  - repeat constructor.
  - inversion Hs as [|? ? Hl Hx]; subst.
    destruct (h_created_at x <? h_created_at r) eqn:E.
    + apply Z.ltb_lt in E. constructor; [exact Hs|].
      constructor; [unfold not_older; lia|].
      eapply Forall_impl; [|exact Hx]. unfold not_older. intros; lia.
    + apply Z.ltb_ge in E. constructor; [now apply IH|].
      eapply Permutation_Forall; [symmetry; apply insert_desc_perm|].
      constructor; [exact E|exact Hx].
Qed.

Lemma order_by_created_at_desc_sorted (l : list history_row) :
  StronglySorted not_older (order_by_created_at_desc l).
Proof.
  unfold order_by_created_at_desc. induction l as [|x l IH]; cbn.
  - constructor.
  - now apply insert_desc_sorted.
Qed.

(** X15.  When the store answers, [GET /api/history] returns status 200
    with every row of the table exactly once, newest first; on an empty
    table that is status 200 with an empty array. *)
Theorem history_list_is_complete_and_newest_first (rt : Runtime) (env : Env)
    (i : Incoming) (w : World) :
  target i = GET_api_history ->
  getConnection_failure env = None ->
  execute_failure env = None ->
  exists rows : list history_row,
    fst (app rt env i w) =
      Return (mkResponse 200
                (VObj [("success", VBool true);
                       ("data", VArr (map history_object rows))])) /\
    Permutation rows (history (db w)) /\
    StronglySorted not_older rows /\
    (history (db w) = [] -> rows = []).
Proof.
  intros Ht Hc He. exists (order_by_created_at_desc (history (db w))).
  split; [|split; [|split]].
  - unfold app. rewrite Ht, get_history_eq, query_eq, Hc, He. reflexivity.
  - apply order_by_created_at_desc_perm.
  - apply order_by_created_at_desc_sorted.
  - now intros ->.
Qed.

Lemma history_list_is_complete_and_newest_first_witness :
  exists rows : list history_row,
    fst (app sample_runtime sample_env
           (mkIncoming GET_api_history "" VUndefined None)
           (mkWorld (mkDatabase
                       [mkHistory 1 (VStr "a") (VStr "x") 10;
                        mkHistory 2 (VStr "b") (VStr "y") 30]
                       3 [] [] 1) [] 0 [])) =
      Return (mkResponse 200
                (VObj [("success", VBool true);
                       ("data", VArr (map history_object rows))])) /\
    Permutation rows [mkHistory 1 (VStr "a") (VStr "x") 10;
                      mkHistory 2 (VStr "b") (VStr "y") 30] /\
    StronglySorted not_older rows /\
    ([mkHistory 1 (VStr "a") (VStr "x") 10;
      mkHistory 2 (VStr "b") (VStr "y") 30] = [] -> rows = []).
Proof.
  apply (history_list_is_complete_and_newest_first sample_runtime sample_env
           (mkIncoming GET_api_history "" VUndefined None)
           (mkWorld (mkDatabase
                       [mkHistory 1 (VStr "a") (VStr "x") 10;
                        mkHistory 2 (VStr "b") (VStr "y") 30]
                       3 [] [] 1) [] 0 [])).
  - reflexivity.
  - reflexivity.
  - reflexivity.
Defined.

Lemma filter_first_match {A : Type} (p : A -> bool) (l1 l2 : list A) (x : A) :
  (forall y, In y l1 -> p y = false) ->
  p x = true ->
  filter p (l1 ++ x :: l2) = x :: filter p l2.
Proof.
  intros H1 Hx. rewrite filter_app, (filter_none _ _ H1). cbn.
  now rewrite Hx.
Qed.

(** X16.  When the store answers, [GET /api/history/:id] returns status 200
    with the first row of the table, in the store's order, whose id the
    store takes to equal the path segment. *)
Theorem get_history_id_returns_first_match (rt : Runtime) (env : Env)
    (i : Incoming) (w : World)
    (before after : list history_row) (x : history_row) :
  target i = GET_api_history_id ->
  getConnection_failure env = None ->
  execute_failure env = None ->
  history (db w) = (before ++ x :: after)%list ->
  (forall y, In y before ->
             id_equals env (h_id y) (VStr (path_id i)) = false) ->
  id_equals env (h_id x) (VStr (path_id i)) = true ->
  fst (app rt env i w) =
    Return (mkResponse 200
              (VObj [("success", VBool true);
                     ("data",
                      VObj [("id", num_of_Z (h_id x));
                            ("title", h_title x);
                            ("message", h_message x);
                            ("created_at", num_of_Z (h_created_at x))])])).
Proof.
  intros Ht Hc He Hh Hbefore Hx. unfold app. rewrite Ht.
  unfold get_history_id. rewrite lookup_eq, query_eq, Hc, He.
  cbn [run_statement params_id]. rewrite Hh.
  rewrite (filter_first_match _ _ _ _ Hbefore Hx). reflexivity.
Qed.

Lemma get_history_id_returns_first_match_witness :
  fst (app sample_runtime sample_env
         (mkIncoming GET_api_history_id "2" VUndefined None)
         (mkWorld (mkDatabase
                     [mkHistory 1 (VStr "a") (VStr "x") 10;
                      mkHistory 2 (VStr "b") (VStr "y") 30]
                     3 [] [] 1) [] 0 [])) =
    Return (mkResponse 200
              (VObj [("success", VBool true);
                     ("data",
                      VObj [("id", num_of_Z 2);
                            ("title", VStr "b");
                            ("message", VStr "y");
                            ("created_at", num_of_Z 30)])])).
Proof.
  apply (get_history_id_returns_first_match sample_runtime sample_env
           (mkIncoming GET_api_history_id "2" VUndefined None)
           (mkWorld (mkDatabase
                       [mkHistory 1 (VStr "a") (VStr "x") 10;
                        mkHistory 2 (VStr "b") (VStr "y") 30]
                       3 [] [] 1) [] 0 [])
           [mkHistory 1 (VStr "a") (VStr "x") 10] []
           (mkHistory 2 (VStr "b") (VStr "y") 30)).
  - reflexivity.
  - reflexivity.
  - reflexivity.
  - reflexivity.
  - intros y [<-|[]]. reflexivity.
  - reflexivity.
Defined.

(** X17.  [GET /api/profile] on an empty table is answered 404 with the
    message ["Profil tidak ditemukan"], when the store answers. *)
Theorem get_profile_on_empty_table_is_404 (rt : Runtime) (env : Env)
    (i : Incoming) (w : World) :
  target i = GET_api_profile ->
  getConnection_failure env = None ->
  execute_failure env = None ->
  profile (db w) = [] ->
  fst (app rt env i w) =
    Return (mkResponse 404
              (VObj [("success", VBool false);
                     ("message", VStr "Profil tidak ditemukan")])).
Proof.
  intros Ht Hc He Hp. unfold app. rewrite Ht.
  unfold get_profile. rewrite lookup_eq, query_eq, Hc, He.
  cbn [run_statement]. rewrite Hp. reflexivity.
Qed.

Lemma get_profile_on_empty_table_is_404_witness :
  fst (app sample_runtime sample_env
         (mkIncoming GET_api_profile "" VUndefined None) sample_world) =
    Return (mkResponse 404
              (VObj [("success", VBool false);
                     ("message", VStr "Profil tidak ditemukan")])).
Proof.
  apply (get_profile_on_empty_table_is_404 sample_runtime sample_env
           (mkIncoming GET_api_profile "" VUndefined None) sample_world).
  - reflexivity.
  - reflexivity.
  - reflexivity.
  - reflexivity.
Defined.

(** *** Round trips *)

(** The row a successful [POST /api/history] appends. *)
Lemma post_history_201 (rt : Runtime) (env : Env) (i : Incoming)
    (w w' : World) (r : Response) :
  target i = POST_api_history ->
  app rt env i w = (Return r, w') ->
  status r = 201 ->
  exists title msg : value,
    destructure rt (parsed_body i) "title" = Return title /\
    destructure rt (parsed_body i) "message" = Return msg /\
    history (db w') =
      (history (db w)
       ++ [mkHistory (history_auto_increment (db w)) title msg
                     (CURRENT_TIMESTAMP env)])%list.
Proof.
  intros Ht. revert r w'. unfold app. rewrite Ht, post_history_eq.
  cbn [body].
  destruct (destructure rt (parsed_body i) "title") as [title|e];
    [|intros ? ? [= <- <-]; discriminate].
  destruct (destructure rt (parsed_body i) "message") as [msg|e];
    [|intros ? ? [= <- <-]; discriminate].
  destruct (falsy title || falsy msg);
    [intros ? ? [= <- <-]; discriminate|].
  rewrite query_eq.
  destruct (getConnection_failure env);
    [intros ? ? [= <- <-]; discriminate|].
  destruct (execute_failure env); [intros ? ? [= <- <-]; discriminate|].
  cbn [run_statement]. intros ? ? [= <- <-] _.
  exists title, msg. repeat split; reflexivity.
Qed.

(** X18.  A record created by [POST /api/history] can be fetched by the id
    the response gave: if the store takes that id, and no older row's id, to
    equal the path segment, [GET /api/history/:id] returns the record with
    the title and message that were posted. *)
Theorem created_history_is_found_by_id (rt : Runtime) (env env' : Env)
    (post get : Incoming) (w w' : World) (r : Response) :
  target post = POST_api_history ->
  app rt env post w = (Return r, w') ->
  status r = 201 ->
  target get = GET_api_history_id ->
  getConnection_failure env' = None ->
  execute_failure env' = None ->
  id_equals env' (history_auto_increment (db w)) (VStr (path_id get)) = true ->
  (forall y, In y (history (db w)) ->
             id_equals env' (h_id y) (VStr (path_id get)) = false) ->
  exists title msg : value,
    destructure rt (parsed_body post) "title" = Return title /\
    destructure rt (parsed_body post) "message" = Return msg /\
    fst (app rt env' get w') =
      Return (mkResponse 200
                (VObj [("success", VBool true);
                       ("data",
                        VObj [("id", num_of_Z (history_auto_increment (db w)));
                              ("title", title);
                              ("message", msg);
                              ("created_at",
                               num_of_Z (CURRENT_TIMESTAMP env))])])).
Proof.
  intros Hpost Happ Hs Hget Hc He Hnew Hold.
  destruct (post_history_201 rt env post w w' r Hpost Happ Hs)
    as (title & msg & Ht & Hm & Hh).
  exists title, msg. split; [exact Ht|]. split; [exact Hm|].
  unfold app. rewrite Hget. unfold get_history_id.
  rewrite lookup_eq, query_eq, Hc, He. cbn [run_statement params_id].
  rewrite Hh. rewrite (filter_first_match _ _ _ _ Hold) by exact Hnew.
  reflexivity.
Qed.

Lemma created_history_is_found_by_id_witness :
  exists title msg : value,
    Return (VStr "Halo") = Return title /\
    Return (VStr "Apa kabar") = Return msg /\
    fst (app sample_runtime sample_env
           (mkIncoming GET_api_history_id "1" VUndefined None)
           (snd (app sample_runtime sample_env
                   (mkIncoming POST_api_history ""
                      (VObj [("title", VStr "Halo");
                             ("message", VStr "Apa kabar")]) None)
                   sample_world))) =
      Return (mkResponse 200
                (VObj [("success", VBool true);
                       ("data",
                        VObj [("id", num_of_Z 1);
                              ("title", title);
                              ("message", msg);
                              ("created_at", num_of_Z 1730000000)])])).
Proof.
  apply (created_history_is_found_by_id sample_runtime sample_env sample_env
           (mkIncoming POST_api_history ""
              (VObj [("title", VStr "Halo"); ("message", VStr "Apa kabar")])
              None)
           (mkIncoming GET_api_history_id "1" VUndefined None)
           sample_world
           (snd (app sample_runtime sample_env
                   (mkIncoming POST_api_history ""
                      (VObj [("title", VStr "Halo");
                             ("message", VStr "Apa kabar")]) None)
                   sample_world))
           (mkResponse 201
              (success (VObj [("id", num_of_Z 1); ("title", VStr "Halo");
                              ("message", VStr "Apa kabar")])))).
  - reflexivity.
  - reflexivity.
  - reflexivity.
  - reflexivity.
  - reflexivity.
  - reflexivity.
  - reflexivity.
  - intros y [].
Defined.

(** X19.  A record created by [POST /api/history] appears in the list: a
    following [GET /api/history] that the store answers returns one row
    more than the table had, and the created record is among them. *)
Theorem created_history_is_listed (rt : Runtime) (env env' : Env)
    (post get : Incoming) (w w' : World) (r : Response) :
  target post = POST_api_history ->
  app rt env post w = (Return r, w') ->
  status r = 201 ->
  target get = GET_api_history ->
  getConnection_failure env' = None ->
  execute_failure env' = None ->
  exists (title msg : value) (rows : list value),
    destructure rt (parsed_body post) "title" = Return title /\
    destructure rt (parsed_body post) "message" = Return msg /\
    fst (app rt env' get w') =
      Return (mkResponse 200
                (VObj [("success", VBool true); ("data", VArr rows)])) /\
    List.length rows = S (List.length (history (db w))) /\
    In (VObj [("id", num_of_Z (history_auto_increment (db w)));
              ("title", title);
              ("message", msg);
              ("created_at", num_of_Z (CURRENT_TIMESTAMP env))])
       rows.
Proof.
  intros Hpost Happ Hs Hget Hc He.
  destruct (post_history_201 rt env post w w' r Hpost Happ Hs)
    as (title & msg & Ht & Hm & Hh).
  exists title, msg,
    (map history_object (order_by_created_at_desc (history (db w')))).
  split; [exact Ht|]. split; [exact Hm|]. split; [|split].
  - unfold app. rewrite Hget, get_history_eq, query_eq, Hc, He. reflexivity.
  - rewrite length_map.
    rewrite (Permutation_length (order_by_created_at_desc_perm _)), Hh.
    rewrite length_app. cbn. lia.
  - change (VObj _) with
      (history_object (mkHistory (history_auto_increment (db w)) title msg
                                 (CURRENT_TIMESTAMP env))).
    apply in_map.
    apply (Permutation_in _
             (Permutation_sym (order_by_created_at_desc_perm _))).
    rewrite Hh. apply in_or_app. right. now left.
Qed.

Lemma created_history_is_listed_witness :
  exists (title msg : value) (rows : list value),
    Return (VStr "Halo") = Return title /\
    Return (VStr "Apa kabar") = Return msg /\
    fst (app sample_runtime sample_env
           (mkIncoming GET_api_history "" VUndefined None)
           (snd (app sample_runtime sample_env
                   (mkIncoming POST_api_history ""
                      (VObj [("title", VStr "Halo");
                             ("message", VStr "Apa kabar")]) None)
                   sample_world))) =
      Return (mkResponse 200
                (VObj [("success", VBool true); ("data", VArr rows)])) /\
    List.length rows = 1%nat /\
    In (VObj [("id", num_of_Z 1);
              ("title", title);
              ("message", msg);
              ("created_at", num_of_Z 1730000000)])
       rows.
Proof.
  apply (created_history_is_listed sample_runtime sample_env sample_env
           (mkIncoming POST_api_history ""
              (VObj [("title", VStr "Halo"); ("message", VStr "Apa kabar")])
              None)
           (mkIncoming GET_api_history "" VUndefined None)
           sample_world
           (snd (app sample_runtime sample_env
                   (mkIncoming POST_api_history ""
                      (VObj [("title", VStr "Halo");
                             ("message", VStr "Apa kabar")]) None)
                   sample_world))
           (mkResponse 201
              (success (VObj [("id", num_of_Z 1); ("title", VStr "Halo");
                              ("message", VStr "Apa kabar")])))).
  - reflexivity.
  - reflexivity.
  - reflexivity.
  - reflexivity.
  - reflexivity.
  - reflexivity.
Defined.

(** *** Errors of the store *)

(** X20.  An error of the store is passed to the client as it is: if one
    of the calls a request made is a [getConnection] or an [execute] that
    failed with an error, the response is 500 with that error's message, and
    the tables are as they were. *)
Theorem store_error_is_answered_500_verbatim (rt : Runtime) (env : Env)
    (i : Incoming) (w : World) (e : Error) :
  In (EvGetConnection (Some e)) (calls_since w (snd (app rt env i w))) \/
  (exists s params,
      In (EvExecute s params (Some e))
         (calls_since w (snd (app rt env i w)))) ->
  fst (app rt env i w) =
    Return (mkResponse 500
              (VObj [("success", VBool false);
                     ("message", VStr (message e))])) /\
  db (snd (app rt env i w)) = db w.
Proof.
  app_paths; cbn [snd fst]; settle_calls;
    intros [H|(s & params & H)]; cbn in H;
    repeat match goal with
           | H : _ \/ _ |- _ => destruct H
           | H : False |- _ => destruct H
           end;
    try discriminate;
    match goal with
    | H : EvGetConnection _ = _ |- _ => injection H; intros; subst
    | H : EvExecute _ _ _ = _ |- _ => injection H; intros; subst
    end;
    split; reflexivity.
Qed.

Lemma store_error_is_answered_500_verbatim_witness :
  fst (app sample_runtime
         (mkEnv "handlips-bucket" 1730000000000 1730000000 sample_id_equals
                (Some store_down) None None)
         (mkIncoming GET_api_history "" VUndefined None) sample_world) =
    Return (mkResponse 500
              (VObj [("success", VBool false);
                     ("message", VStr "Connection lost")])) /\
  db (snd (app sample_runtime
             (mkEnv "handlips-bucket" 1730000000000 1730000000
                    sample_id_equals (Some store_down) None None)
             (mkIncoming GET_api_history "" VUndefined None) sample_world)) =
    db sample_world.
Proof.
  apply (store_error_is_answered_500_verbatim sample_runtime
           (mkEnv "handlips-bucket" 1730000000000 1730000000 sample_id_equals
                  (Some store_down) None None)
           (mkIncoming GET_api_history "" VUndefined None) sample_world
           store_down).
  left. left. reflexivity.
Defined.

(** *** Storage keys *)

Lemma decimal_inj (z z' : Z) : decimal z = decimal z' -> z = z'.
Proof.
  unfold decimal. intros H.
  assert (Hi : forall x, DecimalString.NilZero.int_of_string
                 (DecimalString.NilZero.string_of_int (Z.to_int x))
               = Some (Z.to_int x)).
  { intros x. apply DecimalString.NilZero.isi; destruct x; cbn; try discriminate.
    - intros [= E]. now apply DecimalPos.Unsigned.to_uint_nonnil in E.
    - intros [= E]. now apply DecimalPos.Unsigned.to_uint_nonnil in E. }
  apply DecimalZ.to_int_inj.
  pose proof (Hi z) as H1. rewrite H, Hi in H1. now injection H1.
Qed.

Lemma digits_of_uint (d : Decimal.uint) :
  all_digits (DecimalString.NilEmpty.string_of_uint d) = true.
Proof. induction d; cbn; auto. Qed.

Lemma decimal_digits (z : Z) : 0 <= z -> all_digits (decimal z) = true.
Proof.
  intros Hz. unfold decimal. destruct z as [|p|p]; [reflexivity| |lia].
  cbn. unfold DecimalString.NilZero.string_of_uint.
  destruct (Pos.to_uint p) eqn:E; rewrite <- ?E; try apply digits_of_uint.
  reflexivity.
Qed.

Lemma digits_then_dash (d d' n n' : string) :
  all_digits d = true -> all_digits d' = true ->
  d ++ "-" ++ n = d' ++ "-" ++ n' -> d = d' /\ n = n'.
Proof.
  revert d'. induction d as [|a d IH]; intros [|a' d'] Hd Hd' H; cbn in *.
  - injection H as ->. now split.
  - injection H as <- _. apply andb_prop in Hd' as [Hd' _]. discriminate.
  - injection H as -> _. apply andb_prop in Hd as [Hd _]. discriminate.
  - injection H as <- H. apply andb_prop in Hd as [_ Hd].
    apply andb_prop in Hd' as [_ Hd'].
    destruct (IH d' Hd Hd' H) as [-> ->]. now split.
Qed.

(** X21.  Two uploads get the same storage key exactly when they happen in
    the same millisecond and carry the same original file name: with
    timestamps that are not negative, the key determines both the timestamp
    and the name, so uploads that differ in either never overwrite each
    other, and two that agree in both do. *)
Theorem blob_name_collides_iff_same_time_and_name (env env' : Env)
    (f f' : File) :
  0 <= Date_now env ->
  0 <= Date_now env' ->
  blob_name env f = blob_name env' f' <->
  Date_now env = Date_now env' /\ originalname f = originalname f'.
Proof.
  intros Hz Hz'. unfold blob_name. split.
  - intros H.
    assert (H' : decimal (Date_now env) ++ "-" ++ originalname f =
                 decimal (Date_now env') ++ "-" ++ originalname f')
      by (cbn [append] in H |- *; congruence).
    apply digits_then_dash in H'; try now apply decimal_digits.
    destruct H' as [Hd Hn]. split; [now apply decimal_inj|exact Hn].
  - intros [-> ->]. reflexivity.
Qed.

Lemma blob_name_collides_iff_same_time_and_name_witness :
  blob_name sample_env avatar = blob_name sample_env avatar <->
  Date_now sample_env = Date_now sample_env /\
  originalname avatar = originalname avatar.
Proof.
  apply (blob_name_collides_iff_same_time_and_name sample_env sample_env
           avatar avatar).
  - cbn. lia.
  - cbn. lia.
Defined.

(** *** Validation *)

(** X22.  For a truthy comment and a rating that is a number, the guards of
    [POST /api/feedback] let the request through to the INSERT exactly when
    the rating is finite and between 1 and 4 inclusive (so [2.5] passes);
    any other number ([0], [0.5], [5], an infinity, [NaN]) is answered 400
    and the world is untouched. *)
Theorem numeric_rating_passes_iff_in_range (rt : Runtime) (env : Env)
    (i : Incoming) (w : World) (comment : value) (n : number) :
  target i = POST_api_feedback ->
  destructure rt (parsed_body i) "comment" = Return comment ->
  ToBoolean comment = true ->
  destructure rt (parsed_body i) "rating" = Return (VNum n) ->
  (in_range n ->
   app rt env i w = insert_feedback env comment (VNum n) w) /\
  (~ in_range n ->
   exists msg : string,
     app rt env i w = (Return (mkResponse 400 (failure msg)), w)).
Proof.
  intros Ht Hc Hcomment Hr. destruct n as [| | |q].
  4: exact (post_feedback_numeric_rating rt env i w comment q Ht Hc
              Hcomment Hr).
  all: split; [intros []|intros _].
  all: unfold app; rewrite Ht, post_feedback_eq; cbn [body];
    rewrite Hc, Hr; unfold falsy; rewrite Hcomment; cbn;
    eexists; reflexivity.
Qed.

Lemma numeric_rating_passes_iff_in_range_witness :
  (in_range (Fin 4) ->
   app sample_runtime sample_env
       (mkIncoming POST_api_feedback ""
          (VObj [("comment", VStr "great"); ("rating", num_of_Z 4)]) None)
       sample_world =
     insert_feedback sample_env (VStr "great") (VNum (Fin 4)) sample_world) /\
  (~ in_range (Fin 4) ->
   exists msg : string,
     app sample_runtime sample_env
         (mkIncoming POST_api_feedback ""
            (VObj [("comment", VStr "great"); ("rating", num_of_Z 4)]) None)
         sample_world =
       (Return (mkResponse 400 (failure msg)), sample_world)).
Proof.
  apply (numeric_rating_passes_iff_in_range sample_runtime sample_env
           (mkIncoming POST_api_feedback ""
              (VObj [("comment", VStr "great"); ("rating", num_of_Z 4)]) None)
           sample_world (VStr "great") (Fin 4)).
  - reflexivity.
  - reflexivity.
  - reflexivity.
  - reflexivity.
Defined.

Lemma destructure_object (rt : Runtime) (fields : list (string * value))
    (k : string) :
  exists x, destructure rt (VObj fields) k = Return x.
Proof. cbn. destruct (get_own fields k); eauto. Qed.

(** X23.  A required field that is absent from the body object, or present
    with a falsy value (empty string, [0], [false], [null]), is answered 400
    with the handler's own message before anything else happens:
    [title] and [message] for [POST /api/history], [name] for
    [PUT /api/profile] (here for a request without a file part),
    [comment] and [rating] for [POST /api/feedback]. *)
Theorem missing_field_is_answered_400 (rt : Runtime) (env : Env)
    (i : Incoming) (fields : list (string * value)) (k : string) (w : World) :
  parsed_body i = VObj fields ->
  file_part i = None ->
  In k (required_fields (target i)) ->
  (forall v, get_own fields k = Some v -> ToBoolean v = false) ->
  app rt env i w =
    (Return (mkResponse 400
               (VObj [("success", VBool false);
                      ("message", VStr (missing_message (target i)))])),
     w).
Proof.
  intros Hb Hf Hk Hmissing.
  assert (Hfalsy : forall x, destructure rt (VObj fields) k = Return x ->
                             falsy x = true).
  { cbn. intros x. destruct (get_own fields k) as [v|] eqn:E.
    - intros [= <-]. unfold falsy. now rewrite (Hmissing v eq_refl).
    - now intros [= <-]. }
  unfold app. destruct (target i); cbn in Hk; try (now destruct Hk).
  - rewrite post_history_eq. cbn [body]. rewrite Hb.
    destruct (destructure_object rt fields "title") as [t Et].
    destruct (destructure_object rt fields "message") as [m Em].
    rewrite Et, Em. destruct Hk as [<-|[<-|[]]].
    + now rewrite (Hfalsy t Et).
    + rewrite (Hfalsy m Em), orb_true_r. reflexivity.
  - rewrite Hf. cbn [upload_single named_part]. rewrite put_profile_eq. cbn [body].
    rewrite Hb.
    destruct (destructure_object rt fields "name") as [n En]. rewrite En.
    destruct Hk as [<-|[]]. now rewrite (Hfalsy n En).
  - rewrite post_feedback_eq. cbn [body]. rewrite Hb.
    destruct (destructure_object rt fields "comment") as [c Ec].
    destruct (destructure_object rt fields "rating") as [r Er].
    rewrite Ec, Er. destruct Hk as [<-|[<-|[]]].
    + now rewrite (Hfalsy c Ec).
    + rewrite (Hfalsy r Er), orb_true_r. reflexivity.
Qed.

Lemma missing_field_is_answered_400_witness :
  app sample_runtime sample_env
      (mkIncoming POST_api_feedback "" (VObj [("comment", VStr "great")]) None)
      sample_world =
    (Return (mkResponse 400
               (VObj [("success", VBool false);
                      ("message", VStr "Komentar dan rating harus diisi")])),
     sample_world).
Proof.
  apply (missing_field_is_answered_400 sample_runtime sample_env
           (mkIncoming POST_api_feedback "" (VObj [("comment", VStr "great")])
              None)
           [("comment", VStr "great")] "rating" sample_world).
  - reflexivity.
  - reflexivity.
  - right. left. reflexivity.
  - intros v H. discriminate H.
Defined.

(** X24.  A request whose body was not parsed at all ([req.body] is
    [undefined]) does not get the 400 of a missing field on the three
    endpoints that read the body: destructuring throws at the first
    property the handler asks for ([title], [name], [comment]), the
    handler's [catch] answers 500 with the message of that [TypeError],
    which names the property, and nothing is touched. *)
Theorem undefined_body_is_answered_500 (rt : Runtime) (env : Env)
    (i : Incoming) (w : World) :
  parsed_body i = VUndefined ->
  file_part i = None ->
  target i = POST_api_history \/ target i = PUT_api_profile \/
  target i = POST_api_feedback ->
  let property :=
    match target i with
    | POST_api_history => "title"
    | PUT_api_profile => "name"
    | _ => "comment"
    end in
  app rt env i w =
    (Return (mkResponse 500
               (VObj [("success", VBool false);
                      ("message",
                       VStr (message
                               (TypeError rt
                                  (CannotDestructure property VUndefined))))])),
     w).
Proof.
  intros Hb Hf [Ht|[Ht|Ht]]; unfold app; rewrite Ht; cbv zeta.
  - rewrite post_history_eq. cbn [body]. now rewrite Hb.
  - rewrite Hf. cbn [upload_single named_part]. rewrite put_profile_eq.
    cbn [body]. now rewrite Hb.
  - rewrite post_feedback_eq. cbn [body]. now rewrite Hb.
Qed.

Lemma undefined_body_is_answered_500_witness :
  app sample_runtime sample_env
      (mkIncoming POST_api_history "" VUndefined None) sample_world =
    (Return (mkResponse 500
               (VObj [("success", VBool false);
                      ("message",
                       VStr "Cannot destructure property 'title' of 'req.body' as it is undefined.")])),
     sample_world).
Proof.
  apply (undefined_body_is_answered_500 sample_runtime sample_env
           (mkIncoming POST_api_history "" VUndefined None) sample_world).
  - reflexivity.
  - reflexivity.
  - left. reflexivity.
Defined.
